(** * A to-do service with an LLM tool router: model of [app.py]

    The development follows the source file top to bottom:
    - the Python values the handlers manipulate (JSON data, [str] methods,
      exceptions);
    - the in-memory store ([tasks], [next_id]) and [_find_task_by_desc];
    - the REST handlers;
    - [_strip_fences], [llm_route], [_execute_tool] and [brain_execute];
    - the properties of the service.

    Conventions.  A Python [str] is the Rocq [string] of its UTF-8 encoding
    (well-formed text: no lone surrogates).  [str.strip] is defined on that
    encoding with Python's whitespace set, one- to three-byte characters
    included; [str.lower], whose table is the interpreter's, is a member of
    the runtime the model is parameterised by.  Python [int] is [Z].
    An uncaught exception is the outcome [Raise]; the store is threaded
    explicitly, so what a handler changed before raising stays changed. *)

From Stdlib Require Import ZArith String Ascii List Bool Lia.
From Stdlib Require Import PrimFloat DecimalString DecimalFacts DecimalNat.
From stdpp Require Import base tactics option list strings sorting.

Set Warnings "-register-all".
Set Default Proof Using "Type".

Local Open Scope string_scope.
Local Open Scope Z_scope.

(** ** Python strings *)

Module PyStr.

(** Python's whitespace ([str.isspace]) in UTF-8.  One byte: TAB, LF, VT,
    FF, CR, FS, GS, RS, US and the space. *)
Definition space1 (a : ascii) : bool :=
  let n := nat_of_ascii a in
  ((9 <=? n)%nat && (n <=? 13)%nat) || ((28 <=? n)%nat && (n <=? 32)%nat).

(** Two bytes: U+0085 (C2 85) and U+00A0 (C2 A0). *)
Definition space2 (a b : ascii) : bool :=
  (nat_of_ascii a =? 194)%nat
  && ((nat_of_ascii b =? 133)%nat || (nat_of_ascii b =? 160)%nat).

(** Three bytes: U+1680 (E1 9A 80), U+2000 to U+200A (E2 80 80 to E2 80 8A),
    U+2028, U+2029 and U+202F (E2 80 A8, A9, AF), U+205F (E2 81 9F) and
    U+3000 (E3 80 80). *)
Definition space3 (a b c : ascii) : bool :=
  let x := nat_of_ascii a in
  let y := nat_of_ascii b in
  let z := nat_of_ascii c in
  ((x =? 225) && (y =? 154) && (z =? 128))%nat
  || ((x =? 226) && (y =? 128)
      && (((128 <=? z) && (z <=? 138)) || (z =? 168) || (z =? 169)
          || (z =? 175)))%nat
  || ((x =? 226) && (y =? 129) && (z =? 159))%nat
  || ((x =? 227) && (y =? 128) && (z =? 128))%nat.

(** [s.lstrip()]: whitespace is removed from the left, one encoded
    character at a time. *)
Fixpoint lstrip (s : string) : string :=
  match s with
  | EmptyString => s
  | String a r1 =>
      if space1 a then lstrip r1
      else
        match r1 with
        | EmptyString => s
        | String b r2 =>
            if space2 a b then lstrip r2
            else
              match r2 with
              | EmptyString => s
              | String c r3 => if space3 a b c then lstrip r3 else s
              end
        end
  end.

(** Nothing but whitespace. *)
Definition all_space (s : string) : bool := String.eqb (lstrip s) "".

(** [s.rstrip()]: the longest suffix made of whitespace is removed. *)
Fixpoint rstrip (s : string) : string :=
  match s with
  | EmptyString => EmptyString
  | String a r => if all_space s then EmptyString else String a (rstrip r)
  end.

(** [s.strip()]. *)
Definition strip (s : string) : string := rstrip (lstrip s).

(** [s.lstrip(chars)] for a set of one-byte characters, given as a
    predicate. *)
Fixpoint lstrip_by (p : ascii -> bool) (s : string) : string :=
  match s with
  | EmptyString => EmptyString
  | String c s' => if p c then lstrip_by p s' else s
  end.

(** [s.rstrip(chars)]. *)
Fixpoint rstrip_by (p : ascii -> bool) (s : string) : string :=
  match s with
  | EmptyString => EmptyString
  | String c s' =>
      match rstrip_by p s' with
      | EmptyString => if p c then EmptyString else String c EmptyString
      | r => String c r
      end
  end.

(** [s.strip(chars)]. *)
Definition strip_by (p : ascii -> bool) (s : string) : string :=
  rstrip_by p (lstrip_by p s).

(** [s.startswith(p)]. *)
Definition startswith (p s : string) : bool := String.prefix p s.

(** The text after the first line feed, if there is one. *)
Fixpoint after_newline (s : string) : option string :=
  match s with
  | EmptyString => None
  | String c s' => if Ascii.eqb c "010"%char then Some s' else after_newline s'
  end.

(** [s.split("\n", 1)[-1]]: one split at most, last piece. *)
Definition split1_last (s : string) : string :=
  match after_newline s with
  | Some rest => rest
  | None => s
  end.

(** [str(n)] for a length. *)
Definition of_nat (n : nat) : string := NilZero.string_of_uint (Nat.to_uint n).

End PyStr.

(** ** Python values and exceptions *)

(** What [json.loads] and [request.get_json] produce.  [JNull] is Python's
    [None]; an object keeps its keys in insertion order. *)
Inductive json : Type :=
| JNull
| JBool (b : bool)
| JInt (n : Z)
| JFloat (f : float)
| JString (s : string)
| JArray (items : list json)
| JObject (fields : list (string * json)).

Inductive exn : Type :=
| AttributeError
| KeyError
| TypeError
| ValueError.

Inductive outcome (A : Type) : Type :=
| Ret (a : A)
| Raise (e : exn).
Arguments Ret {A} a.
Arguments Raise {A} e.

(** [outcome] is a monad; handlers are written with stdpp's [x ← m; k]. *)
Global Instance outcome_ret : MRet outcome := fun A a => Ret a.
Global Instance outcome_bind : MBind outcome := fun A B k m =>
  match m with
  | Ret a => k a
  | Raise e => Raise e
  end.

Module Py.

(** First binding of a key in an object's field list. *)
Fixpoint assoc (k : string) (o : list (string * json)) : option json :=
  match o with
  | [] => None
  | (k', v) :: o' => if String.eqb k' k then Some v else assoc k o'
  end.

(** Truth value of a Python object ([bool(v)]). *)
Definition truthy (v : json) : bool :=
  match v with
  | JNull => false
  | JBool b => b
  | JInt n => negb (n =? 0)
  | JFloat f => negb (PrimFloat.eqb f 0%float)
  | JString s => negb (String.eqb s "")
  | JArray items => match items with [] => false | _ => true end
  | JObject fields => match fields with [] => false | _ => true end
  end.

(** [a or b]. *)
Definition or_ (a b : json) : json := if truthy a then a else b.

(** [d.get(k, default)]: only a dict has the method. *)
Definition get_default (d : json) (k : string) (default : json) : outcome json :=
  match d with
  | JObject o => Ret (match assoc k o with Some v => v | None => default end)
  | _ => Raise AttributeError
  end.

(** [d.get(k)]. *)
Definition get (d : json) (k : string) : outcome json := get_default d k JNull.

(** [d[k]] with a string key. *)
Definition index (d : json) (k : string) : outcome json :=
  match d with
  | JObject o => match assoc k o with Some v => Ret v | None => Raise KeyError end
  | _ => Raise TypeError
  end.

(** [v.strip()]: only a [str] has the method. *)
Definition strip (v : json) : outcome string :=
  match v with
  | JString s => Ret (PyStr.strip s)
  | _ => Raise AttributeError
  end.

(** [v == s] for a string literal [s]. *)
Definition eq_str (v : json) (s : string) : bool :=
  match v with
  | JString s' => String.eqb s' s
  | _ => false
  end.

(** [v in {s1, ..., sn}] for a set of strings: an unhashable [v] (a list or
    a dict) raises [TypeError]. *)
Definition in_str_set (v : json) (ss : list string) : outcome bool :=
  match v with
  | JArray _ | JObject _ => Raise TypeError
  | _ => Ret (existsb (eq_str v) ss)
  end.

End Py.

(** The part of the Python runtime the service calls and this file does not
    define: the JSON reader, the formatting of a non-string value inside an
    f-string, and [str.lower], whose case table is that of the interpreter's
    Unicode database.  Of [str.lower] the model uses only that it maps the
    empty string, and no other, to the empty string. *)
Class PyRuntime : Type := {
  (** [json.loads(s)], [None] when it raises. *)
  json_loads : string -> option json;
  (** [format(v, "")] for a value that is not a [str]. *)
  py_str : json -> string;
  (** [s.lower()]. *)
  str_lower : string -> string;
  str_lower_nil : str_lower "" = "";
  str_lower_nonempty : forall s, str_lower s = "" -> s = "";
}.

(** [f"{v}"]. *)
Definition py_format `{PyRuntime} (v : json) : string :=
  match v with
  | JString s => s
  | _ => py_str v
  end.

(** ** The in-memory store *)

Module Task.
(** One entry of [tasks]: the dict built by the two creation paths. *)
Record t : Type := mk {
  id : Z;
  description : string;
  completed : bool;
  created_at : string;
}.

Global Instance eq_dec : EqDecision t.
Proof. solve_decision. Defined.

(** [task["completed"] = True]. *)
Definition complete (x : t) : t :=
  {| id := id x; description := description x;
     completed := true; created_at := created_at x |}.

(** The dict as [jsonify] sees it. *)
Definition to_json (x : t) : json :=
  JObject [("id", JInt (id x));
           ("description", JString (description x));
           ("completed", JBool (completed x));
           ("created_at", JString (created_at x))].
End Task.

(** The two module-level globals, [tasks] and [next_id]. *)
Record store : Type := mkStore {
  tasks : list Task.t;
  next_id : Z;
}.

(** The store of a freshly started process. *)
Definition init : store := {| tasks := []; next_id := 1 |}.

(** [s.strip().lower()], the key descriptions are compared by. *)
Definition normalize `{PyRuntime} (s : string) : string :=
  str_lower (PyStr.strip s).

(** [_find_task_by_desc]: the first task, in list order, whose normalized
    description equals the normalized argument.  The position is returned
    with the task: it stands for the identity of the dict object, which the
    callers mutate or remove.  The callers pass a [str], for which
    [desc or ""] is [desc]. *)
Definition _find_task_by_desc `{PyRuntime} (desc : string) (ts : list Task.t)
  : option (nat * Task.t) :=
  let d := normalize desc in
  list_find (fun x => normalize (Task.description x) = d) ts.

(** [tasks.remove(x)]: drops the first element equal to [x] (dict equality
    compares all fields), [ValueError] when there is none. *)
Fixpoint list_remove (x : Task.t) (l : list Task.t) : outcome (list Task.t) :=
  match l with
  | [] => Raise ValueError
  | y :: l' =>
      if decide (y = x) then Ret l'
      else l'' ← list_remove x l'; mret (y :: l'')
  end.

(** ** REST API *)

(** A Flask view returns a JSON body and a status; it may also raise, which
    Flask turns into a 500.  The store after the call is part of the result. *)
Definition response : Type := json * Z.
Definition view : Type := outcome response * store.

Definition error_body (msg : string) : json := JObject [("error", JString msg)].

(** [(data.get("description") or "").strip()]. *)
Definition description_arg (data : json) : outcome string :=
  v ← Py.get data "description"; Py.strip (Py.or_ v (JString "")).

(** [GET /api/tasks]. *)
Definition get_tasks (st : store) : view :=
  (Ret (JObject [("tasks", JArray (Task.to_json <$> tasks st))], 200), st).

(** [POST /api/tasks].  [body] is [request.get_json(silent=True)], [now] the
    value [_now_iso()] returns during the call. *)
Definition create_task (body : json) (now : string) (st : store) : view :=
  let data := Py.or_ body (JObject []) in
  match description_arg data with
  | Raise e => (Raise e, st)
  | Ret description =>
      if String.eqb description "" then
        (Ret (error_body "description is required", 400), st)
      else
        let task := Task.mk (next_id st) description false now in
        (Ret (Task.to_json task, 201),
         {| tasks := tasks st ++ [task]; next_id := next_id st + 1 |})
  end.

(** [PATCH /api/tasks/by-description]. *)
Definition complete_task_by_description `{PyRuntime} (body : json)
    (st : store) : view :=
  let data := Py.or_ body (JObject []) in
  match description_arg data with
  | Raise e => (Raise e, st)
  | Ret desc =>
      if String.eqb desc "" then
        (Ret (error_body "description is required", 400), st)
      else
        match _find_task_by_desc desc (tasks st) with
        | None => (Ret (error_body "task not found", 404), st)
        | Some (i, task) =>
            let task' := Task.complete task in
            (Ret (Task.to_json task', 200),
             {| tasks := <[i := task']> (tasks st); next_id := next_id st |})
        end
  end.

(** [DELETE /api/tasks/by-description]. *)
Definition delete_task_by_description `{PyRuntime} (body : json)
    (st : store) : view :=
  let data := Py.or_ body (JObject []) in
  match description_arg data with
  | Raise e => (Raise e, st)
  | Ret desc =>
      if String.eqb desc "" then
        (Ret (error_body "description is required", 400), st)
      else
        match _find_task_by_desc desc (tasks st) with
        | None => (Ret (error_body "task not found", 404), st)
        | Some (_, task) =>
            match list_remove task (tasks st) with
            | Raise e => (Raise e, st)
            | Ret ts =>
                (Ret (JObject [("ok", JBool true);
                               ("deleted_description", JString desc)], 200),
                 {| tasks := ts; next_id := next_id st |})
            end
        end
  end.

(** ** Chat brain *)

(** What the chat-completion call does for one user message: it raises, or
    it returns and [choices[0].message.content] is a string or [None].  The
    two SDK shapes of the source (client object or legacy module) differ only
    in how the same request is spelled. *)
Inductive completion : Type :=
| CompletionRaises
| CompletionContent (content : option string).

(** [_openai_client]: [None] without an API key or SDK, else the client,
    seen as its answer to a user message. *)
Definition llm_client : Type := option (string -> completion).

(** *** Client set-up (module level)

    What the process finds when it imports the SDK: no [openai] package, a
    legacy package without the [OpenAI] class, or the current package, whose
    constructor call returns or raises. *)
Inductive sdk : Type :=
| NoSdk
| LegacySdk
| NewSdk (constructs : bool).

(** What [_openai_client] is bound to, when not to [None]. *)
Inductive client_kind : Type :=
| ClientObject
| LegacyModule.

(** The values given to [_llm_mode]. *)
Inductive llm_mode : Type :=
| ModeNew
| ModeLegacy.

(** A module-level name after the [try] blocks: never assigned, or assigned. *)
Inductive binding (A : Type) : Type :=
| Unbound
| Bound (a : A).
Arguments Unbound {A}.
Arguments Bound {A} a.

(** [os.environ.get("OPENAI_API_KEY", "")]. *)
Definition api_key (env : option string) : string := default "" env.

(** The [try]/[except] blocks that bind [_openai_client] and [_llm_mode].
    The first block raises at the import (no [OpenAI] class) or at the
    constructor call, which is made only with a non-empty key; the handler
    then tries the legacy module. *)
Definition connect (env : option string) (s : sdk)
  : option client_kind * binding (option llm_mode) :=
  let key := api_key env in
  let legacy :=
    if negb (String.eqb key "") then (Some LegacyModule, Bound (Some ModeLegacy))
    else (None, Unbound) in
  match s with
  | NewSdk constructs =>
      if negb (String.eqb key "") then
        if constructs then (Some ClientObject, Bound (Some ModeNew)) else legacy
      else (None, Bound (Some ModeNew))
  | LegacySdk => legacy
  | NoSdk => (None, Bound None)
  end.

(** How the start-up banner ends: it prints [_llm_mode or 'none'], which
    raises [NameError] when the name was never assigned. *)
Inductive startup : Type :=
| Started (client : option client_kind) (mode : option llm_mode)
| BannerNameError.

Definition start (env : option string) (s : sdk) : startup :=
  match connect env s with
  | (client, Bound mode) => Started client mode
  | (_, Unbound) => BannerNameError
  end.

Definition backtick : ascii := "`"%char.

(** [_strip_fences]. *)
Definition _strip_fences (s : string) : string :=
  if String.eqb s "" then s
  else
    let s := PyStr.strip s in
    let s :=
      if PyStr.startswith "```" s then
        let s := PyStr.strip_by (Ascii.eqb backtick) s in
        PyStr.split1_last s
      else s in
    PyStr.strip s.

(** The names [llm_route] accepts as tool calls. *)
Definition tool_names : list string :=
  ["addTask"; "completeTask"; "deleteTask"; "viewTasks"].

Section Brain.
Context `{PyRuntime}.

(** The inner [try] of [llm_route]: the decoded object when it names one of
    the four tools, [None] when the block falls through or raises. *)
Definition parse_tool (content : string) : option json :=
  match json_loads content with
  | None => None
  | Some data =>
      match (fn ← Py.get data "function";
             params ← Py.get_default data "parameters" (JObject []);
             Py.in_str_set fn tool_names) with
      | Ret true => Some data
      | _ => None
      end
  end.

(** [llm_route].  The result is a dict, or [None] ([JNull]).  [message] is a
    [str], so [message or ""] is [message]. *)
Definition llm_route (client : llm_client) (message : string) : json :=
  match client with
  | None => JNull
  | Some create =>
      match create message with
      | CompletionRaises => JNull
      | CompletionContent c =>
          let content := _strip_fences (default "" c) in
          match parse_tool content with
          | Some data => JObject [("mode", JString "tool"); ("tool", data)]
          | None => JObject [("mode", JString "text"); ("reply", JString content)]
          end
      end
  end.

(** [_execute_tool].  [now] is what [_now_iso()] returns during the call. *)
Definition _execute_tool (tool : json) (now : string) (st : store)
  : outcome json * store :=
  match (fn ← Py.get tool "function";
         p ← Py.get_default tool "parameters" (JObject []);
         mret (fn, p)) with
  | Raise e => (Raise e, st)
  | Ret (fn, p) =>
      if Py.eq_str fn "addTask" then
        match description_arg p with
        | Raise e => (Raise e, st)
        | Ret desc =>
            if String.eqb desc "" then (Ret (error_body "description required"), st)
            else
              let task := Task.mk (next_id st) desc false now in
              (Ret (JObject [("ok", JBool true); ("task", Task.to_json task)]),
               {| tasks := tasks st ++ [task]; next_id := next_id st + 1 |})
        end
      else if Py.eq_str fn "viewTasks" then
        (Ret (JObject [("ok", JBool true);
                       ("tasks", JArray (Task.to_json <$> tasks st))]), st)
      else if Py.eq_str fn "completeTask" then
        match description_arg p with
        | Raise e => (Raise e, st)
        | Ret desc =>
            match _find_task_by_desc desc (tasks st) with
            | None => (Ret (error_body "not found"), st)
            | Some (i, t) =>
                let t' := Task.complete t in
                (Ret (JObject [("ok", JBool true); ("task", Task.to_json t')]),
                 {| tasks := <[i := t']> (tasks st); next_id := next_id st |})
            end
        end
      else if Py.eq_str fn "deleteTask" then
        match description_arg p with
        | Raise e => (Raise e, st)
        | Ret desc =>
            match _find_task_by_desc desc (tasks st) with
            | None => (Ret (error_body "not found"), st)
            | Some (_, t) =>
                match list_remove t (tasks st) with
                | Raise e => (Raise e, st)
                | Ret ts =>
                    (Ret (JObject [("ok", JBool true);
                                   ("deleted_description", JString desc)]),
                     {| tasks := ts; next_id := next_id st |})
                end
            end
        end
      else (Ret (error_body "unknown"), st)
  end.

(** [tool['parameters']['description']] inside an f-string. *)
Definition quoted_description (tool : json) : outcome string :=
  p ← Py.index tool "parameters";
  d ← Py.index p "description";
  mret (py_format d).

(** [tool["function"] == name and result.get("ok")], as a condition. *)
Definition ran_ok (tool result : json) (name : string) : outcome bool :=
  fn ← Py.index tool "function";
  if Py.eq_str fn name then ok ← Py.get result "ok"; mret (Py.truthy ok)
  else mret false.

(** The reply chosen by the [if]/[elif] chain of [brain_execute]; [n] is
    [len(tasks)] once the tool has run. *)
Definition synthesize_reply (tool result : json) (n : nat) : outcome string :=
  added ← ran_ok tool result "addTask";
  if added : bool then
    d ← quoted_description tool; mret ("Added “" ++ d ++ "”.")
  else
  marked ← ran_ok tool result "completeTask";
  if marked : bool then
    d ← quoted_description tool; mret ("Marked “" ++ d ++ "” as done.")
  else
  deleted ← ran_ok tool result "deleteTask";
  if deleted : bool then
    d ← quoted_description tool; mret ("Deleted “" ++ d ++ "”.")
  else
  fn ← Py.index tool "function";
  if Py.eq_str fn "viewTasks" then
    mret ("You have " ++ PyStr.of_nat n ++ " task(s).")
  else mret "OK".

(** [(data.get("message") or "").strip()]. *)
Definition message_arg (data : json) : outcome string :=
  v ← Py.get data "message"; Py.strip (Py.or_ v (JString "")).

(** [POST /api/brain/execute]. *)
Definition brain_execute (client : llm_client) (body : json) (now : string)
    (st : store) : view :=
  let data := Py.or_ body (JObject []) in
  match message_arg data with
  | Raise e => (Raise e, st)
  | Ret msg =>
      let llm := llm_route client msg in
      match (if negb (Py.truthy llm) then mret true
             else mode ← Py.get llm "mode"; mret (Py.eq_str mode "text")) with
      | Raise e => (Raise e, st)
      | Ret true =>
          (Ret (Py.or_ llm (JObject [("mode", JString "text");
                                     ("reply", JString "Sorry, I can't do that.")]),
                200), st)
      | Ret false =>
          match Py.index llm "tool" with
          | Raise e => (Raise e, st)
          | Ret tool =>
              match _execute_tool tool now st with
              | (Raise e, st') => (Raise e, st')
              | (Ret result, st') =>
                  match synthesize_reply tool result (length (tasks st')) with
                  | Raise e => (Raise e, st')
                  | Ret reply =>
                      (Ret (JObject [("mode", JString "tool"); ("tool", tool);
                                     ("result", result);
                                     ("reply", JString reply)], 200), st')
                  end
              end
          end
      end
  end.

(** ** The service as a transition system *)

(** One HTTP request, with what the outside world contributes to handling
    it: the decoded body, the clock reading, the LLM client's behaviour.
    [GET /] serves a static file and neither reads nor writes the store; it
    is left out. *)
Inductive request : Type :=
| GetTasks
| PostTask (body : json) (now : string)
| PatchByDescription (body : json)
| DeleteByDescription (body : json)
| PostBrainExecute (client : llm_client) (body : json) (now : string).

Definition handle (r : request) (st : store) : view :=
  match r with
  | GetTasks => get_tasks st
  | PostTask body now => create_task body now st
  | PatchByDescription body => complete_task_by_description body st
  | DeleteByDescription body => delete_task_by_description body st
  | PostBrainExecute client body now => brain_execute client body now st
  end.

(** The store after serving the requests in order. *)
Fixpoint run (rs : list request) (st : store) : store :=
  match rs with
  | [] => st
  | r :: rs' => run rs' (handle r st).2
  end.

(** The tasks one request created.  The only way the list grows is
    [tasks.append], so they are the entries past the previous length. *)
Definition fresh (st st' : store) : list Task.t :=
  drop (length (tasks st)) (tasks st').

(** All tasks created while serving the requests, in creation order. *)
Fixpoint created (rs : list request) (st : store) : list Task.t :=
  match rs with
  | [] => []
  | r :: rs' => let st' := (handle r st).2 in fresh st st' ++ created rs' st'
  end.

End Brain.

(** ** Vocabulary of the statements *)

(** [d.get(k)] on a field list. *)
Definition field (o : list (string * json)) (k : string) : json :=
  default JNull (Py.assoc k o).

(** A description argument that is absent or [null] (both read as [None]),
    or a string that is empty once trimmed. *)
Definition blank (v : json) : Prop :=
  v = JNull \/ exists s, v = JString s /\ PyStr.strip s = "".

(** [tool] is a dict that names the function [name]; [params] is its
    [parameters] dict, empty when the key is missing. *)
Definition calls (tool : json) (name : string) (params : list (string * json))
  : Prop :=
  exists o, tool = JObject o
    /\ Py.assoc "function" o = Some (JString name)
    /\ (Py.assoc "parameters" o = Some (JObject params)
        \/ (Py.assoc "parameters" o = None /\ params = [])).

(** [tool] is a dict that names the function [name] and whose [parameters]
    entry [p] is present but is not a dict ([null], a list, a string, ...). *)
Definition ill_typed_call (tool : json) (name : string) (p : json) : Prop :=
  exists o, tool = JObject o
    /\ Py.assoc "function" o = Some (JString name)
    /\ Py.assoc "parameters" o = Some p
    /\ forall params, p <> JObject params.

(** A request body whose message [brain_execute] can read: no body or a
    falsy one, or a dict whose [message] is missing, falsy or a string. *)
Definition readable (body : json) : Prop :=
  Py.truthy body = false
  \/ exists o, body = JObject o
       /\ (Py.truthy (field o "message") = false
           \/ exists s, field o "message" = JString s).

(** [digits] is the decimal numeral of [n], without leading zeros. *)
Definition decimal (digits : string) (n : nat) : Prop :=
  exists u, NilZero.uint_of_string digits = Some u
    /\ Decimal.unorm u = u
    /\ Nat.of_uint u = n.

(** [data] is a JSON object whose [function] is one of the four tool names. *)
Definition names_tool (data : json) : Prop :=
  exists o f, data = JObject o
    /\ Py.assoc "function" o = Some (JString f)
    /\ f ∈ tool_names.

(** The two dicts [llm_route] returns. *)
Definition tool_intent (data : json) : json :=
  JObject [("mode", JString "tool"); ("tool", data)].
Definition text_reply (content : string) : json :=
  JObject [("mode", JString "text"); ("reply", JString content)].

(** A stored description is non-empty and already trimmed. *)
Definition clean (s : string) : Prop := s <> "" /\ PyStr.strip s = s.

(** Every stored id is below the counter, ids increase along the list, and
    every stored description is clean. *)
Record well_formed (st : store) : Prop := {
  wf_below : Forall (fun x => Task.id x < next_id st) (tasks st);
  wf_sorted : StronglySorted Z.lt (Task.id <$> tasks st);
  wf_clean : Forall (fun x => clean (Task.description x)) (tasks st);
}.

(** The store after [task["completed"] = True] on the task found at
    position [i], and after that task is removed. *)
Definition completed_at (i : nat) (x : Task.t) (st : store) : store :=
  {| tasks := <[i := Task.complete x]> (tasks st); next_id := next_id st |}.
Definition removed_at (i : nat) (st : store) : store :=
  {| tasks := delete i (tasks st); next_id := next_id st |}.

(** The store after a task with description [desc] is appended. *)
Definition appended (desc now : string) (st : store) : store :=
  {| tasks := tasks st ++ [Task.mk (next_id st) desc false now];
     next_id := next_id st + 1 |}.

(** The number of bytes of the whitespace character [s] starts with, 0 when
    it starts with none: the step [PyStr.lstrip] takes. *)
Definition tok (s : string) : nat :=
  match s with
  | EmptyString => 0
  | String a r1 =>
      if PyStr.space1 a then 1
      else
        match r1 with
        | EmptyString => 0
        | String b r2 =>
            if PyStr.space2 a b then 2
            else
              match r2 with
              | EmptyString => 0
              | String c r3 => if PyStr.space3 a b c then 3 else 0
              end
        end
  end%nat.

(** [s[n:]]. *)
Fixpoint sdrop (n : nat) (s : string) : string :=
  match n, s with
  | S n, String _ r => sdrop n r
  | _, _ => s
  end.

(** A byte below 128: an ASCII character, never part of a longer one. *)
Definition ascii7 (c : ascii) : Prop := (nat_of_ascii c < 128)%nat.

(** An ASCII character that is not whitespace. *)
Definition plain (c : ascii) : Prop := ascii7 c /\ PyStr.space1 c = false.

(** An argument that is absent, [null] or a string. *)
Definition text_or_absent (v : json) : Prop :=
  v = JNull \/ exists s, v = JString s.

(** [x'] is [x] at a later time: same id, description and creation time,
    and still completed if [x] was. *)
Definition persists (x x' : Task.t) : Prop :=
  Task.id x' = Task.id x
  /\ Task.description x' = Task.description x
  /\ Task.created_at x' = Task.created_at x
  /\ (Task.completed x = true -> Task.completed x' = true).

(** The ways a request can change the store. *)
Inductive effect (st : store) : store -> Prop :=
| effect_none : effect st st
| effect_create desc now :
    desc <> "" -> PyStr.strip desc = desc -> effect st (appended desc now st)
| effect_complete i x :
    tasks st !! i = Some x -> effect st (completed_at i x st)
| effect_delete i x :
    tasks st !! i = Some x -> effect st (removed_at i st).

(** ** A concrete runtime for the worked examples

    A small JSON reader standing in for [json.loads]: objects, arrays,
    strings with the one-letter escapes, integers, [true], [false], [null];
    it does not read fractions, exponents or [\u] escapes.  Its [str.lower]
    maps the ASCII letters.  The statements below hold for every runtime;
    this one only instantiates them. *)

Module Sample.

(** The double quote character. *)
Definition dquote : ascii := "034"%char.

(** JSON whitespace: space, TAB, LF, CR. *)
Definition is_ws (c : ascii) : bool :=
  Ascii.eqb c " " || Ascii.eqb c "009" || Ascii.eqb c "010" || Ascii.eqb c "013".

Fixpoint skip_ws (s : string) : string :=
  match s with
  | String c s' => if is_ws c then skip_ws s' else s
  | EmptyString => s
  end.

(** The character an escape letter stands for. *)
Definition unescape (c : ascii) : option ascii :=
  if Ascii.eqb c dquote then Some dquote
  else if Ascii.eqb c "\" then Some "\"%char
  else if Ascii.eqb c "/" then Some "/"%char
  else if Ascii.eqb c "b" then Some "008"%char
  else if Ascii.eqb c "f" then Some "012"%char
  else if Ascii.eqb c "n" then Some "010"%char
  else if Ascii.eqb c "r" then Some "013"%char
  else if Ascii.eqb c "t" then Some "009"%char
  else None.

(** The rest of a string literal, after its opening quote. *)
Fixpoint read_string (s : string) : option (string * string) :=
  match s with
  | EmptyString => None
  | String c s' =>
      if Ascii.eqb c dquote then Some (EmptyString, s')
      else if Ascii.eqb c "\" then
        match s' with
        | String e s'' =>
            match unescape e, read_string s'' with
            | Some c', Some (x, rest) => Some (String c' x, rest)
            | _, _ => None
            end
        | EmptyString => None
        end
      else if (nat_of_ascii c <? 32)%nat then None
      else
        match read_string s' with
        | Some (x, rest) => Some (String c x, rest)
        | None => None
        end
  end.

Definition digit (c : ascii) : option Z :=
  let n := nat_of_ascii c in
  if ((48 <=? n) && (n <=? 57))%nat then Some (Z.of_nat (n - 48)) else None.

(** A run of digits continuing the number [acc]. *)
Fixpoint read_digits (acc : Z) (s : string) : Z * string :=
  match s with
  | String c s' =>
      match digit c with
      | Some d => read_digits (10 * acc + d) s'
      | None => (acc, s)
      end
  | EmptyString => (acc, s)
  end.

(** An unsigned integer literal: no leading zero, no fraction or exponent. *)
Definition read_nat (s : string) : option (Z * string) :=
  match s with
  | String c s' =>
      match digit c with
      | Some d =>
          let '(n, rest) := if d =? 0 then (0, s') else read_digits d s' in
          match rest with
          | String c' _ =>
              if Ascii.eqb c' "." || Ascii.eqb c' "e" || Ascii.eqb c' "E"
                 || match digit c' with Some _ => true | None => false end
              then None else Some (n, rest)
          | EmptyString => Some (n, rest)
          end
      | None => None
      end
  | EmptyString => None
  end.

(** [d[k] = v] on a field list: the value is replaced where the key already
    is, else the binding is added at the end. *)
Fixpoint dict_set (k : string) (v : json) (o : list (string * json))
  : list (string * json) :=
  match o with
  | [] => [(k, v)]
  | (k', v') :: o' =>
      if String.eqb k' k then (k', v) :: o' else (k', v') :: dict_set k v o'
  end.

(** [s] without its prefix [p]. *)
Definition strip_prefix (p s : string) : option string :=
  if String.prefix p s then
    Some (String.substring (String.length p)
                           (String.length s - String.length p) s)
  else None.

(** One JSON value at the head of [s], with the unread rest.  [fuel] bounds
    the number of values and separators read. *)
Fixpoint read_value (fuel : nat) (s : string) : option (json * string) :=
  match fuel with
  | O => None
  | S fuel =>
      match skip_ws s with
      | EmptyString => None
      | String c r as s0 =>
          if Ascii.eqb c "{" then
            match skip_ws r with
            | String "}" r' => Some (JObject [], r')
            | r' => read_members fuel [] r'
            end
          else if Ascii.eqb c "[" then
            match skip_ws r with
            | String "]" r' => Some (JArray [], r')
            | r' => read_items fuel [] r'
            end
          else if Ascii.eqb c dquote then
            match read_string r with
            | Some (x, r') => Some (JString x, r')
            | None => None
            end
          else if Ascii.eqb c "-" then
            match read_nat r with
            | Some (n, r') => Some (JInt (- n), r')
            | None => None
            end
          else
            match strip_prefix "true" s0, strip_prefix "false" s0,
                  strip_prefix "null" s0 with
            | Some r', _, _ => Some (JBool true, r')
            | _, Some r', _ => Some (JBool false, r')
            | _, _, Some r' => Some (JNull, r')
            | _, _, _ =>
                match read_nat s0 with
                | Some (n, r') => Some (JInt n, r')
                | None => None
                end
            end
      end
  end
with read_members (fuel : nat) (acc : list (string * json)) (s : string)
  : option (json * string) :=
  match fuel with
  | O => None
  | S fuel =>
      match skip_ws s with
      | String c r =>
          if Ascii.eqb c dquote then
            match read_string r with
            | Some (k, r1) =>
                match skip_ws r1 with
                | String ":" r2 =>
                    match read_value fuel r2 with
                    | Some (v, r3) =>
                        match skip_ws r3 with
                        | String "," r4 => read_members fuel (dict_set k v acc) r4
                        | String "}" r4 => Some (JObject (dict_set k v acc), r4)
                        | _ => None
                        end
                    | None => None
                    end
                | _ => None
                end
            | None => None
            end
          else None
      | EmptyString => None
      end
  end
with read_items (fuel : nat) (acc : list json) (s : string)
  : option (json * string) :=
  match fuel with
  | O => None
  | S fuel =>
      match read_value fuel s with
      | Some (v, r) =>
          match skip_ws r with
          | String "," r' => read_items fuel (acc ++ [v]) r'
          | String "]" r' => Some (JArray (acc ++ [v]), r')
          | _ => None
          end
      | None => None
      end
  end.

(** A whole document: one value, then only whitespace. *)
Definition loads (s : string) : option json :=
  match read_value (S (String.length s)) s with
  | Some (v, r) => match skip_ws r with EmptyString => Some v | _ => None end
  | None => None
  end.


(** [str(v)] for the values that print without further structure; floats
    and containers are elided. *)
Definition show (v : json) : string :=
  match v with
  | JNull => "None"
  | JBool true => "True"
  | JBool false => "False"
  | JInt n => NilZero.string_of_int (Z.to_int n)
  | JString s => s
  | _ => "..."
  end.

(** [c.lower()] on ASCII; a byte of a longer character is left alone. *)
Definition lower_char (c : ascii) : ascii :=
  let n := nat_of_ascii c in
  if ((65 <=? n)%nat && (n <=? 90)%nat)%bool then ascii_of_nat (n + 32) else c.

(** A [str.lower] that knows the ASCII letters only. *)
Fixpoint lower (s : string) : string :=
  match s with
  | EmptyString => EmptyString
  | String c s' => String (lower_char c) (lower s')
  end.

Lemma lower_nonempty s : lower s = "" -> s = "".
Proof. destruct s; [reflexivity | discriminate]. Qed.

Definition runtime : PyRuntime :=
  {| json_loads := loads; py_str := show; str_lower := lower;
     str_lower_nil := eq_refl; str_lower_nonempty := lower_nonempty |}.

(** A literal between double quotes. *)
Definition quote (s : string) : string :=
  String dquote s ++ String dquote "".

(** The text [{"function":"<name>","parameters":{"description":"<d>"}}]. *)
Definition call_text (name d : string) : string :=
  "{" ++ quote "function" ++ ":" ++ quote name ++ ","
      ++ quote "parameters" ++ ":{" ++ quote "description" ++ ":" ++ quote d
      ++ "}}".

(** The dict that text decodes to. *)
Definition call (name d : string) : json :=
  JObject [("function", JString name);
           ("parameters", JObject [("description", JString d)])].

(** An LLM that answers every message with [text]. *)
Definition answering (text : string) : llm_client :=
  Some (fun _ => CompletionContent (Some text)).

(** A body [{"message": m}] and a body [{"description": d}]. *)
Definition say (m : string) : json := JObject [("message", JString m)].
Definition about (d : string) : json := JObject [("description", JString d)].

Definition noon : string := "2024-05-01T12:00:00Z".

(** U+00A0 (no-break space) and U+2003 (em space), as UTF-8. *)
Definition nbsp : string := String "194" (String "160" "").
Definition emsp : string := String "226" (String "128" (String "131" "")).

(** A store holding the one task "buy milk". *)
Definition milk : store :=
  {| tasks := [Task.mk 1 "buy milk" false noon]; next_id := 2 |}.

(** A fenced answer, as a model may send it despite the prompt. *)
Definition fenced (text : string) : string :=
  "```json" ++ String "010" text ++ String "010" "```".

(** Four requests: create, delete what was created, create twice more, the
    last time through the chat endpoint. *)
Definition session : list request :=
  [PostTask (about "buy milk") noon;
   DeleteByDescription (about "Buy Milk");
   PostTask (about "walk dog") noon;
   PostBrainExecute (answering (call_text "addTask" "water plants"))
                    (say "please add water plants") noon].

(** A store with two tasks that normalize alike, and a third one. *)
Definition pantry : store :=
  {| tasks := [Task.mk 1 "buy milk" true noon; Task.mk 2 "Buy Milk" false noon;
               Task.mk 4 "walk dog" false noon];
     next_id := 5 |}.

End Sample.

(** * Properties *)

Section Properties.
Context {runtime : PyRuntime}.

(** ** Strings *)

Lemma string_app_cons x (a b : string) : String x a ++ b = String x (a ++ b).
Proof. reflexivity. Qed.

Lemma string_app_nil (b : string) : "" ++ b = b.
Proof. reflexivity. Qed.

(** *** [str.strip] *)

Lemma lstrip_step s :
  PyStr.lstrip s = match tok s with 0%nat => s | k => PyStr.lstrip (sdrop k s) end.
Proof.
  destruct s as [|a [|b [|c r]]]; simpl; try reflexivity.
  - by destruct (PyStr.space1 a).
  - destruct (PyStr.space1 a); [reflexivity|]. by destruct (PyStr.space2 a b).
  - destruct (PyStr.space1 a); [reflexivity|].
    destruct (PyStr.space2 a b); [reflexivity|]. by destruct (PyStr.space3 a b c).
Qed.

Lemma tok_le s : (tok s <= String.length s)%nat.
Proof.
  destruct s as [|a [|b [|c r]]]; simpl; try lia.
  - destruct (PyStr.space1 a); lia.
  - destruct (PyStr.space1 a); [lia|]. destruct (PyStr.space2 a b); lia.
  - destruct (PyStr.space1 a); [lia|].
    destruct (PyStr.space2 a b); [lia|]. destruct (PyStr.space3 a b c); lia.
Qed.

Lemma sdrop_length k s :
  (k <= String.length s)%nat ->
  String.length (sdrop k s) = (String.length s - k)%nat.
Proof.
  revert s. induction k as [|k IH]; intros s Hk; simpl.
  - destruct s; simpl; lia.
  - destruct s; simpl in *; [lia|]. apply IH. lia.
Qed.

(** Induction along the characters [lstrip] removes. *)
Lemma lstrip_ind (P : string -> Prop) :
  (forall s, tok s = 0%nat -> P s) ->
  (forall s, tok s <> 0%nat -> P (sdrop (tok s) s) -> P s) ->
  forall s, P s.
Proof.
  intros H0 Hk s. remember (String.length s) as n eqn:Hn.
  revert s Hn. induction n as [n IH] using lt_wf_ind. intros s ->.
  destruct (decide (tok s = 0%nat)) as [E|E]; [by apply H0|].
  apply Hk; [exact E|]. eapply IH; [|reflexivity].
  rewrite sdrop_length by apply tok_le. pose proof (tok_le s). lia.
Qed.

Lemma lstrip_fixed s : tok s = 0%nat -> PyStr.lstrip s = s.
Proof. intros E. by rewrite lstrip_step, E. Qed.

Lemma lstrip_drop s : tok s <> 0%nat -> PyStr.lstrip s = PyStr.lstrip (sdrop (tok s) s).
Proof. intros E. rewrite lstrip_step at 1. by destruct (tok s). Qed.

Lemma tok_lstrip s : tok (PyStr.lstrip s) = 0%nat.
Proof.
  induction s as [s E|s E IH] using lstrip_ind.
  - by rewrite lstrip_fixed.
  - by rewrite lstrip_drop.
Qed.

(** The whitespace character a string starts with is still there when the
    string is extended. *)
Lemma tok_app x w : tok x <> 0%nat -> tok (x ++ w) = tok x.
Proof.
  destruct x as [|a [|b [|c r]]]; simpl; try congruence.
  - destruct (PyStr.space1 a); congruence.
  - destruct (PyStr.space1 a); [congruence|]. destruct (PyStr.space2 a b); congruence.
Qed.

Lemma tok_prefix x w : tok (x ++ w) = 0%nat -> tok x = 0%nat.
Proof.
  intros E. destruct (decide (tok x = 0%nat)) as [|N]; [done|].
  rewrite (tok_app _ w N) in E. congruence.
Qed.

Lemma sdrop_app k x w :
  (k <= String.length x)%nat -> sdrop k (x ++ w) = sdrop k x ++ w.
Proof.
  revert x. induction k as [|k IH]; intros x Hk; simpl.
  - by destruct x.
  - destruct x as [|a x]; simpl in *; [lia|]. apply IH. lia.
Qed.

Lemma lstrip_app_drop x w :
  tok x <> 0%nat -> PyStr.lstrip (x ++ w) = PyStr.lstrip (sdrop (tok x) x ++ w).
Proof.
  intros E. rewrite lstrip_drop by (by rewrite tok_app).
  by rewrite tok_app, sdrop_app by (done || apply tok_le).
Qed.

Lemma all_space_spec s : PyStr.all_space s = true <-> PyStr.lstrip s = "".
Proof. apply String.eqb_eq. Qed.

Lemma all_space_false s : PyStr.all_space s = false <-> PyStr.lstrip s <> "".
Proof. apply String.eqb_neq. Qed.

Lemma lstrip_app_space x w : PyStr.lstrip x = "" -> PyStr.lstrip (x ++ w) = PyStr.lstrip w.
Proof.
  induction x as [x E|x E IH] using lstrip_ind; intros Hx.
  - rewrite lstrip_fixed in Hx by done. by subst.
  - rewrite lstrip_app_drop by done. apply IH. by rewrite <- lstrip_drop.
Qed.

Lemma rstrip_split r : exists w, r = PyStr.rstrip r ++ w /\ PyStr.lstrip w = "".
Proof.
  induction r as [|a r (w & Hr & Hw)]; [by exists ""|].
  cbn [PyStr.rstrip]. destruct (PyStr.all_space (String a r)) eqn:E.
  - exists (String a r). split; [done | by apply all_space_spec].
  - exists w. split; [|done]. rewrite string_app_cons. by f_equal.
Qed.

Lemma tok_rstrip s : tok s = 0%nat -> tok (PyStr.rstrip s) = 0%nat.
Proof.
  intros E. destruct (rstrip_split s) as (w & Hs & _).
  apply (tok_prefix _ w). by rewrite <- Hs.
Qed.

Lemma rstrip_idem r : PyStr.rstrip (PyStr.rstrip r) = PyStr.rstrip r.
Proof.
  induction r as [|a r IH]; [done|].
  cbn [PyStr.rstrip]. destruct (PyStr.all_space (String a r)) eqn:E; [done|].
  cbn [PyStr.rstrip]. rewrite IH.
  destruct (PyStr.all_space (String a (PyStr.rstrip r))) eqn:E'; [|done].
  exfalso. apply all_space_spec in E'. apply all_space_false in E. apply E.
  destruct (rstrip_split r) as (w & Hr & Hw).
  rewrite Hr, <- string_app_cons, lstrip_app_space; done.
Qed.

Lemma strip_idem s : PyStr.strip (PyStr.strip s) = PyStr.strip s.
Proof.
  unfold PyStr.strip.
  rewrite (lstrip_fixed (PyStr.rstrip _)) by apply tok_rstrip, tok_lstrip.
  apply rstrip_idem.
Qed.

(** *** ASCII characters next to whitespace *)

Lemma ascii7_space2_l a b : ascii7 a -> PyStr.space2 a b = false.
Proof.
  unfold ascii7, PyStr.space2. intros Ha.
  replace (nat_of_ascii a =? 194)%nat with false; [done|].
  symmetry. apply Nat.eqb_neq. lia.
Qed.

Lemma ascii7_space2_r a b : ascii7 b -> PyStr.space2 a b = false.
Proof.
  unfold ascii7, PyStr.space2. intros Hb.
  replace (nat_of_ascii b =? 133)%nat with false by (symmetry; apply Nat.eqb_neq; lia).
  replace (nat_of_ascii b =? 160)%nat with false by (symmetry; apply Nat.eqb_neq; lia).
  apply andb_false_r.
Qed.

Lemma space3_bytes a b c :
  PyStr.space3 a b c = true ->
  (128 <= nat_of_ascii a /\ 128 <= nat_of_ascii b /\ 128 <= nat_of_ascii c)%nat.
Proof.
  unfold PyStr.space3. cbv zeta.
  rewrite !orb_true_iff, !andb_true_iff, !orb_true_iff, !andb_true_iff,
    !Nat.eqb_eq, !Nat.leb_le. lia.
Qed.

Lemma ascii7_space3 a b c :
  ascii7 a \/ ascii7 b \/ ascii7 c -> PyStr.space3 a b c = false.
Proof.
  unfold ascii7. intros Hc. destruct (PyStr.space3 a b c) eqn:E; [|done].
  apply space3_bytes in E. lia.
Qed.

Lemma space1_ascii7 c : PyStr.space1 c = true -> ascii7 c.
Proof.
  unfold PyStr.space1, ascii7. cbv zeta.
  rewrite orb_true_iff, !andb_true_iff, !Nat.leb_le. lia.
Qed.

Lemma tok_ascii7 c t :
  ascii7 c -> tok (String c t) = if PyStr.space1 c then 1%nat else 0%nat.
Proof.
  intros Hc. destruct t as [|b [|d t]]; simpl; try done.
  - rewrite ascii7_space2_l by done. by destruct (PyStr.space1 c).
  - rewrite ascii7_space2_l, ascii7_space3 by auto. by destruct (PyStr.space1 c).
Qed.

(** An ASCII character does not complete a whitespace character begun
    before it. *)
Lemma tok_app_ascii7 x c t :
  ascii7 c -> x <> "" -> tok x = 0%nat -> tok (x ++ String c t) = 0%nat.
Proof.
  intros Hc Hx. destruct x as [|a [|b [|d r]]]; [done| | |]; simpl.
  - destruct (PyStr.space1 a); [done|]. intros _.
    rewrite ascii7_space2_r by done.
    destruct t; [done|]. by rewrite ascii7_space3 by auto.
  - destruct (PyStr.space1 a); [done|]. destruct (PyStr.space2 a b); [done|].
    intros _. by rewrite ascii7_space3 by auto.
  - done.
Qed.

Lemma lstrip_app_ascii7 x c t :
  ascii7 c ->
  PyStr.lstrip (x ++ String c t)
  = if PyStr.all_space x then PyStr.lstrip (String c t)
    else PyStr.lstrip x ++ String c t.
Proof.
  intros Hc. induction x as [x E|x E IH] using lstrip_ind.
  - unfold PyStr.all_space. rewrite (lstrip_fixed x) by done.
    destruct x as [|a x]; [done|]. simpl String.eqb.
    apply lstrip_fixed, tok_app_ascii7; done.
  - rewrite lstrip_app_drop by done. rewrite IH.
    unfold PyStr.all_space. by rewrite <- lstrip_drop.
Qed.

Lemma all_space_app_space1 x c :
  PyStr.space1 c = true -> PyStr.all_space (x ++ String c "") = PyStr.all_space x.
Proof.
  intros Hc. unfold PyStr.all_space at 1.
  rewrite lstrip_app_ascii7 by by apply space1_ascii7.
  destruct (PyStr.all_space x) eqn:E.
  - simpl. by rewrite Hc.
  - apply all_space_false in E. destruct (PyStr.lstrip x); done.
Qed.

Lemma rstrip_app_space1 x c :
  PyStr.space1 c = true -> PyStr.rstrip (x ++ String c "") = PyStr.rstrip x.
Proof.
  intros Hc. induction x as [|a x IH].
  - rewrite string_app_nil. cbn [PyStr.rstrip].
    change (String c "") with ("" ++ String c "").
    by rewrite all_space_app_space1.
  - rewrite string_app_cons. cbn [PyStr.rstrip].
    rewrite <- string_app_cons, all_space_app_space1 by done.
    by rewrite IH.
Qed.

Lemma strip_app_space1 x c :
  PyStr.space1 c = true -> PyStr.strip (x ++ String c "") = PyStr.strip x.
Proof.
  intros Hc. unfold PyStr.strip.
  rewrite lstrip_app_ascii7 by by apply space1_ascii7.
  destruct (PyStr.all_space x) eqn:E.
  - apply all_space_spec in E. rewrite E. simpl. by rewrite Hc.
  - by apply rstrip_app_space1.
Qed.

Lemma lstrip_plain c t : plain c -> PyStr.lstrip (String c t) = String c t.
Proof. intros [H7 Hs]. apply lstrip_fixed. by rewrite tok_ascii7, Hs. Qed.

Lemma all_space_app_plain x c t :
  plain c -> PyStr.all_space (x ++ String c t) = false.
Proof.
  intros Hc. apply all_space_false.
  rewrite lstrip_app_ascii7 by apply Hc.
  destruct (PyStr.all_space x); [by rewrite lstrip_plain|].
  by destruct (PyStr.lstrip x).
Qed.

Lemma rstrip_app_plain x c t :
  plain c -> PyStr.rstrip (x ++ String c t) = x ++ String c (PyStr.rstrip t).
Proof.
  intros Hc. induction x as [|a x IH].
  - rewrite !string_app_nil. cbn [PyStr.rstrip].
    change (String c t) with ("" ++ String c t).
    by rewrite all_space_app_plain.
  - rewrite !string_app_cons. cbn [PyStr.rstrip].
    rewrite <- string_app_cons, all_space_app_plain by done.
    by rewrite IH.
Qed.

Lemma normalize_empty s : normalize s = "" <-> PyStr.strip s = "".
Proof.
  unfold normalize. split; [apply str_lower_nonempty|].
  intros ->. apply str_lower_nil.
Qed.

Lemma eqb_empty_false s : String.eqb s "" = false <-> s <> "".
Proof. apply String.eqb_neq. Qed.

(** ** Lookup and removal *)

Lemma find_task_Some desc ts i x :
  _find_task_by_desc desc ts = Some (i, x) <->
  ts !! i = Some x
  /\ normalize (Task.description x) = normalize desc
  /\ forall j y, ts !! j = Some y -> (j < i)%nat ->
       normalize (Task.description y) <> normalize desc.
Proof.
  unfold _find_task_by_desc.
  apply (list_find_Some (fun y => normalize (Task.description y) = normalize desc)).
Qed.

Lemma find_task_None desc ts :
  _find_task_by_desc desc ts = None <->
  Forall (fun y => normalize (Task.description y) <> normalize desc) ts.
Proof.
  unfold _find_task_by_desc.
  apply (list_find_None (fun y => normalize (Task.description y) = normalize desc)).
Qed.

(** Removing by value the task a lookup returned removes it at the position
    where it was found: an equal dict further up would have been found
    first. *)
Lemma list_remove_first (P : Task.t -> Prop) ts : forall i x,
  ts !! i = Some x -> P x ->
  (forall j y, ts !! j = Some y -> (j < i)%nat -> ~ P y) ->
  list_remove x ts = Ret (delete i ts).
Proof.
  induction ts as [|y ts IH]; intros i x Hi Px Hmin; [discriminate|].
  simpl. destruct (decide (y = x)) as [->|Hne].
  - destruct i as [|i]; [reflexivity|].
    exfalso. apply (Hmin 0%nat x); [reflexivity | lia | exact Px].
  - destruct i as [|i]; [simpl in Hi; congruence|].
    rewrite (IH i x); [reflexivity | exact Hi | exact Px |].
    intros j z Hj Hlt. apply (Hmin (S j) z); [exact Hj | lia].
Qed.

Lemma list_remove_found desc ts i x :
  _find_task_by_desc desc ts = Some (i, x) ->
  list_remove x ts = Ret (delete i ts).
Proof.
  intros (Hi & Hx & Hmin)%find_task_Some.
  apply (list_remove_first
           (fun y => normalize (Task.description y) = normalize desc));
    assumption.
Qed.

(** ** What a request can do to the store *)

Lemma description_arg_stripped data s :
  description_arg data = Ret s -> PyStr.strip s = s.
Proof.
  unfold description_arg. destruct (Py.get data "description") as [v|]; [|discriminate].
  simpl. destruct (Py.or_ v (JString "")); try discriminate.
  simpl. intros [= <-]. apply strip_idem.
Qed.

Lemma create_task_effect body now st : effect st (create_task body now st).2.
Proof.
  unfold create_task.
  destruct (description_arg _) as [desc|] eqn:E; [|constructor].
  destruct (String.eqb desc "") eqn:Ee; [constructor|]. simpl.
  apply effect_create; [by apply eqb_empty_false | by eapply description_arg_stripped].
Qed.

Lemma complete_task_effect body st :
  effect st (complete_task_by_description body st).2.
Proof.
  unfold complete_task_by_description.
  destruct (description_arg _) as [desc|]; [|constructor].
  destruct (String.eqb desc ""); [constructor|].
  destruct (_find_task_by_desc desc (tasks st)) as [[i x]|] eqn:F; [|constructor].
  apply find_task_Some in F as (Hi & _). simpl. by eapply effect_complete.
Qed.

Lemma delete_task_effect body st :
  effect st (delete_task_by_description body st).2.
Proof.
  unfold delete_task_by_description.
  destruct (description_arg _) as [desc|]; [|constructor].
  destruct (String.eqb desc ""); [constructor|].
  destruct (_find_task_by_desc desc (tasks st)) as [[i x]|] eqn:F; [|constructor].
  rewrite (list_remove_found _ _ _ _ F).
  apply find_task_Some in F as (Hi & _). simpl. by eapply effect_delete.
Qed.

Lemma execute_tool_effect tool now st : effect st (_execute_tool tool now st).2.
Proof.
  unfold _execute_tool.
  destruct (_ ≫= _) as [[fn p]|]; [|constructor].
  destruct (Py.eq_str fn "addTask").
  { destruct (description_arg p) as [desc|] eqn:E; [|constructor].
    destruct (String.eqb desc "") eqn:Ee; [constructor|]. simpl.
    apply effect_create; [by apply eqb_empty_false | by eapply description_arg_stripped]. }
  destruct (Py.eq_str fn "viewTasks"); [constructor|].
  destruct (Py.eq_str fn "completeTask").
  { destruct (description_arg p) as [desc|]; [|constructor].
    destruct (_find_task_by_desc desc (tasks st)) as [[i x]|] eqn:F; [|constructor].
    apply find_task_Some in F as (Hi & _). simpl. by eapply effect_complete. }
  destruct (Py.eq_str fn "deleteTask"); [|constructor].
  destruct (description_arg p) as [desc|]; [|constructor].
  destruct (_find_task_by_desc desc (tasks st)) as [[i x]|] eqn:F; [|constructor].
  rewrite (list_remove_found _ _ _ _ F).
  apply find_task_Some in F as (Hi & _). simpl. by eapply effect_delete.
Qed.

Lemma brain_execute_effect client body now st :
  effect st (brain_execute client body now st).2.
Proof.
  unfold brain_execute.
  destruct (message_arg _) as [msg|]; [|constructor].
  destruct (if negb _ then _ else _) as [[|]|]; try constructor.
  destruct (Py.index _ "tool") as [tool|]; [|constructor].
  pose proof (execute_tool_effect tool now st) as He.
  destruct (_execute_tool tool now st) as [[result|] st']; [|exact He].
  destruct (synthesize_reply _ _ _); exact He.
Qed.

Lemma handle_effect r st : effect st (handle r st).2.
Proof.
  destruct r; simpl.
  - constructor.
  - apply create_task_effect.
  - apply complete_task_effect.
  - apply delete_task_effect.
  - apply brain_execute_effect.
Qed.

(** ** Invariant of the store *)

Lemma well_formed_init : well_formed init.
Proof. split; simpl; constructor. Qed.

Lemma StronglySorted_delete {A} (R : relation A) (l : list A) i :
  StronglySorted R l -> StronglySorted R (delete i l).
Proof.
  revert i. induction l as [|x l IH]; intros i Hs; [by destruct i|].
  apply StronglySorted_cons in Hs as [Hx Hl].
  destruct i as [|i]; simpl; [exact Hl|].
  apply StronglySorted_cons. split; [by apply Forall_delete | by apply IH].
Qed.

Lemma fmap_id_complete (l : list Task.t) i x :
  l !! i = Some x -> Task.id <$> <[i := Task.complete x]> l = Task.id <$> l.
Proof.
  intros Hi. rewrite list_fmap_insert. apply list_insert_id.
  by rewrite list_lookup_fmap, Hi.
Qed.

Lemma effect_well_formed st st' : effect st st' -> well_formed st -> well_formed st'.
Proof.
  intros He [Hb Hs Hc]. destruct He as [|desc now Hne Hstrip|i x Hi|i x Hi]; simpl.
  - by split.
  - split; simpl.
    + apply Forall_app; split.
      * eapply Forall_impl; [exact Hb|]. simpl. intros; lia.
      * apply Forall_singleton. simpl. lia.
    + rewrite fmap_app. apply StronglySorted_app_2; [|exact Hs|repeat constructor].
      intros a b (y & -> & Hy)%list_elem_of_fmap Hb2. simpl in Hb2.
      apply list_elem_of_singleton in Hb2 as ->.
      rewrite Forall_forall in Hb. by apply Hb.
    + apply Forall_app; split; [exact Hc|]. apply Forall_singleton. by split.
  - split; simpl.
    + apply Forall_insert; [exact Hb|]. simpl.
      rewrite Forall_lookup in Hb. by apply (Hb i x).
    + by rewrite fmap_id_complete.
    + apply Forall_insert; [exact Hc|]. simpl.
      rewrite Forall_lookup in Hc. by apply (Hc i x).
  - split; simpl.
    + by apply Forall_delete.
    + rewrite list_fmap_delete. by apply StronglySorted_delete.
    + by apply Forall_delete.
Qed.

(** No clean description normalizes to the empty string. *)
Lemma clean_normalize s : clean s -> normalize s <> "".
Proof. intros [Hne Hs] Hn. apply normalize_empty in Hn. congruence. Qed.

Lemma find_blank_None st s :
  well_formed st -> PyStr.strip s = "" -> _find_task_by_desc s (tasks st) = None.
Proof.
  intros [_ _ Hc] Hs. apply find_task_None.
  eapply Forall_impl; [exact Hc|]. simpl. intros x Hx.
  replace (normalize s) with "" by (symmetry; by apply normalize_empty).
  by apply clean_normalize.
Qed.

Lemma run_well_formed rs : forall st, well_formed st -> well_formed (run rs st).
Proof.
  induction rs as [|r rs IH]; intros st Hwf; simpl; [exact Hwf|].
  apply IH. eapply effect_well_formed; [apply handle_effect | exact Hwf].
Qed.

Lemma reachable_well_formed rs : well_formed (run rs init).
Proof. apply run_well_formed, well_formed_init. Qed.

(** ** Ids handed out along a run *)

Lemma effect_fresh st st' :
  effect st st' -> well_formed st ->
  (fresh st st' = [] /\ next_id st' = next_id st)
  \/ (exists x, fresh st st' = [x] /\ tasks st' = (tasks st ++ [x])%list
                /\ Task.id x = next_id st /\ next_id st' = next_id st + 1).
Proof.
  intros He _. unfold fresh.
  destruct He as [|desc now Hne Hstrip|i x Hi|i x Hi]; simpl.
  - left. split; [|reflexivity]. by apply drop_all.
  - right. eexists. split; [|by simpl].
    by rewrite drop_app_length.
  - left. split; [|reflexivity]. apply drop_ge. by rewrite length_insert.
  - left. split; [|reflexivity]. apply drop_ge.
    pose proof (length_delete (tasks st) i (ex_intro _ x Hi)). lia.
Qed.

Lemma seqZ_sorted m n : StronglySorted Z.lt (seqZ m n).
Proof.
  destruct (decide (n <= 0)) as [Hn|Hn]; [rewrite seqZ_nil by lia; constructor|].
  rewrite <- (Z2Nat.id n) by lia. generalize (Z.to_nat n) as k. clear.
  intros k. revert m. induction k as [|k IH]; intros m.
  - rewrite seqZ_nil by lia. constructor.
  - rewrite seqZ_cons by lia. apply StronglySorted_cons. split.
    + apply Forall_seqZ. intros; lia.
    + replace (Z.pred (Z.of_nat (S k))) with (Z.of_nat k) by lia. apply IH.
Qed.

Lemma created_ids rs : forall st,
  well_formed st ->
  next_id st <= next_id (run rs st)
  /\ Task.id <$> created rs st
     = seqZ (next_id st) (next_id (run rs st) - next_id st).
Proof.
  induction rs as [|r rs IH]; intros st Hwf; simpl.
  - split; [lia|]. by rewrite seqZ_nil by lia.
  - pose proof (handle_effect r st) as He.
    pose proof (effect_well_formed _ _ He Hwf) as Hwf'.
    destruct (IH _ Hwf') as [Hle Hids].
    rewrite fmap_app, Hids.
    destruct (effect_fresh _ _ He Hwf) as [[-> Hn]|(x & -> & _ & Hx & Hn)].
    + rewrite Hn in *. by split.
    + rewrite Hn in *. split; [lia|]. simpl. rewrite Hx.
      rewrite (seqZ_cons (next_id st)) by lia. f_equal. f_equal; lia.
Qed.

(** ** Reading arguments *)

Lemma get_field o k : Py.get (JObject o) k = Ret (field o k).
Proof. unfold Py.get, Py.get_default, field. by destruct (Py.assoc k o). Qed.

Lemma or_dict o : Py.or_ (JObject o) (JObject []) = JObject o.
Proof. by destruct o. Qed.

Lemma description_arg_string o d :
  field o "description" = JString d ->
  description_arg (JObject o) = Ret (PyStr.strip d).
Proof.
  intros Hd. unfold description_arg. rewrite get_field, Hd. simpl.
  unfold Py.or_. simpl. destruct (String.eqb d "") eqn:E; simpl; [|reflexivity].
  apply String.eqb_eq in E as ->. reflexivity.
Qed.

Lemma description_arg_blank o :
  blank (field o "description") -> description_arg (JObject o) = Ret "".
Proof.
  intros [Hn|(s & Hs & Hblank)].
  - unfold description_arg. rewrite get_field, Hn. reflexivity.
  - rewrite (description_arg_string _ _ Hs). by rewrite Hblank.
Qed.

(** A description that yields a non-empty argument is a string of the
    parameters. *)
Lemma description_arg_inv o desc :
  description_arg (JObject o) = Ret desc -> desc <> "" ->
  exists d, Py.assoc "description" o = Some (JString d) /\ desc = PyStr.strip d.
Proof.
  unfold description_arg. rewrite get_field. unfold field. simpl.
  destruct (Py.assoc "description" o) as [v|] eqn:E; simpl.
  - unfold Py.or_. destruct (Py.truthy v) eqn:T.
    + destruct v; simpl; try discriminate. intros [= <-] _. eauto.
    + simpl. intros [= <-] Hne. by destruct Hne.
  - intros [= <-] Hne. by destruct Hne.
Qed.

Lemma description_arg_raise v e : description_arg v = Raise e -> e = AttributeError.
Proof.
  unfold description_arg. destruct v; simpl; try (by intros [= <-]).
  destruct (Py.or_ _ _); simpl; try discriminate; by intros [= <-].
Qed.

Lemma message_arg_raise v e : message_arg v = Raise e -> e = AttributeError.
Proof.
  unfold message_arg. destruct v; simpl; try (by intros [= <-]).
  destruct (Py.or_ _ _); simpl; try discriminate; by intros [= <-].
Qed.

Lemma description_arg_not_dict p :
  (forall o, p <> JObject o) -> description_arg p = Raise AttributeError.
Proof. intros Hp. destruct p; try reflexivity. by destruct (Hp fields). Qed.

(** The bodies whose message can be read are the [readable] ones. *)
Lemma message_arg_readable body :
  readable body <-> exists m, message_arg (Py.or_ body (JObject [])) = Ret m.
Proof.
  assert (forall o,
    (Py.truthy (field o "message") = false
     \/ exists s, field o "message" = JString s)
    <-> exists m, message_arg (JObject o) = Ret m) as Hobj.
  { intros o. unfold message_arg. rewrite get_field. cbn [mbind outcome_bind].
    unfold Py.or_. destruct (Py.truthy (field o "message")) eqn:T.
    - split.
      + intros [|(s & ->)]; [discriminate | eauto].
      + intros (m & Hm). right.
        destruct (field o "message"); try discriminate. eauto.
    - split; [eauto | by left]. }
  unfold readable, Py.or_. destruct (Py.truthy body) eqn:T.
  - split.
    + intros [|(o & -> & Ho)]; [discriminate | by apply Hobj].
    + intros (m & Hm). right. destruct body; try discriminate.
      eexists. split; [reflexivity|]. apply Hobj. eauto.
  - split; [eauto | by left].
Qed.

Lemma calls_args tool name params :
  calls tool name params ->
  (fn ← Py.get tool "function";
   p ← Py.get_default tool "parameters" (JObject []);
   mret (fn, p)) = Ret (JString name, JObject params).
Proof.
  intros (o & -> & Hf & Hp). rewrite get_field. unfold field. rewrite Hf. simpl.
  destruct Hp as [->|[-> ->]]; reflexivity.
Qed.

Lemma find_task_strip d ts :
  _find_task_by_desc (PyStr.strip d) ts = _find_task_by_desc d ts.
Proof. unfold _find_task_by_desc, normalize. by rewrite strip_idem. Qed.

Lemma store_eta st : {| tasks := tasks st; next_id := next_id st |} = st.
Proof. by destruct st. Qed.

Lemma complete_completed x : Task.completed x = true -> Task.complete x = x.
Proof. destruct x; simpl; intros ->; reflexivity. Qed.

(** ** The executor, case by case *)

Ltac enter_tool Hcalls :=
  unfold _execute_tool; rewrite (calls_args _ _ _ Hcalls); cbn [Py.eq_str String.eqb Ascii.eqb Bool.eqb].

Lemma execute_add_blank tool params now st :
  calls tool "addTask" params -> blank (field params "description") ->
  _execute_tool tool now st = (Ret (error_body "description required"), st).
Proof.
  intros Hc Hb. enter_tool Hc. simpl. by rewrite (description_arg_blank _ Hb).
Qed.

Lemma execute_add_string tool params d now st :
  calls tool "addTask" params -> field params "description" = JString d ->
  PyStr.strip d <> "" ->
  _execute_tool tool now st
  = (Ret (JObject [("ok", JBool true);
                   ("task", Task.to_json (Task.mk (next_id st) (PyStr.strip d) false now))]),
     {| tasks := tasks st ++ [Task.mk (next_id st) (PyStr.strip d) false now];
        next_id := next_id st + 1 |}).
Proof.
  intros Hc Hd Hne. enter_tool Hc. simpl. rewrite (description_arg_string _ _ Hd).
  apply eqb_empty_false in Hne. by rewrite Hne.
Qed.

Lemma execute_complete tool params desc now st :
  calls tool "completeTask" params -> description_arg (JObject params) = Ret desc ->
  _execute_tool tool now st
  = match _find_task_by_desc desc (tasks st) with
    | None => (Ret (error_body "not found"), st)
    | Some (i, x) =>
        (Ret (JObject [("ok", JBool true); ("task", Task.to_json (Task.complete x))]),
         {| tasks := <[i := Task.complete x]> (tasks st); next_id := next_id st |})
    end.
Proof. intros Hc Hd. enter_tool Hc. simpl. by rewrite Hd. Qed.

Lemma execute_delete tool params desc now st :
  calls tool "deleteTask" params -> description_arg (JObject params) = Ret desc ->
  _execute_tool tool now st
  = match _find_task_by_desc desc (tasks st) with
    | None => (Ret (error_body "not found"), st)
    | Some (i, x) =>
        (Ret (JObject [("ok", JBool true); ("deleted_description", JString desc)]),
         {| tasks := delete i (tasks st); next_id := next_id st |})
    end.
Proof.
  intros Hc Hd. enter_tool Hc. simpl. rewrite Hd.
  destruct (_find_task_by_desc desc (tasks st)) as [[i x]|] eqn:F; [|reflexivity].
  by rewrite (list_remove_found _ _ _ _ F).
Qed.

(** With a [parameters] entry that is not a dict, [p.get] raises in the three
    branches that read a description. *)
Lemma execute_ill_typed tool name p now st :
  ill_typed_call tool name p ->
  name = "addTask" \/ name = "completeTask" \/ name = "deleteTask" ->
  _execute_tool tool now st = (Raise AttributeError, st).
Proof.
  intros (o & -> & Hf & Hp & Hnd) Hname. unfold _execute_tool.
  rewrite get_field. unfold field, Py.get_default. rewrite Hf, Hp.
  cbn [mbind outcome_bind mret outcome_ret default].
  rewrite (description_arg_not_dict _ Hnd).
  destruct Hname as [->|[->| ->]]; reflexivity.
Qed.

(** A body that is neither falsy nor a dict has no [get]. *)
Lemma rest_not_dict body now st :
  Py.truthy body = true -> (forall o, body <> JObject o) ->
  create_task body now st = (Raise AttributeError, st).
Proof.
  intros Ht Hnd. unfold create_task, Py.or_. rewrite Ht.
  by rewrite (description_arg_not_dict _ Hnd).
Qed.

(** ** The REST handlers, case by case *)

Lemma rest_blank o now st :
  blank (field o "description") ->
  create_task (JObject o) now st
  = (Ret (error_body "description is required", 400), st).
Proof.
  intros Hb. unfold create_task. rewrite or_dict.
  by rewrite (description_arg_blank _ Hb).
Qed.

Lemma rest_complete o d st :
  field o "description" = JString d -> PyStr.strip d <> "" ->
  complete_task_by_description (JObject o) st
  = match _find_task_by_desc d (tasks st) with
    | None => (Ret (error_body "task not found", 404), st)
    | Some (i, x) => (Ret (Task.to_json (Task.complete x), 200), completed_at i x st)
    end.
Proof.
  intros Hd Hne. unfold complete_task_by_description. rewrite or_dict.
  rewrite (description_arg_string _ _ Hd).
  apply eqb_empty_false in Hne. rewrite Hne, find_task_strip.
  by destruct (_find_task_by_desc d (tasks st)) as [[i x]|].
Qed.

Lemma rest_delete o d st :
  field o "description" = JString d -> PyStr.strip d <> "" ->
  delete_task_by_description (JObject o) st
  = match _find_task_by_desc d (tasks st) with
    | None => (Ret (error_body "task not found", 404), st)
    | Some (i, x) =>
        (Ret (JObject [("ok", JBool true);
                       ("deleted_description", JString (PyStr.strip d))], 200),
         removed_at i st)
    end.
Proof.
  intros Hd Hne. unfold delete_task_by_description. rewrite or_dict.
  rewrite (description_arg_string _ _ Hd).
  apply eqb_empty_false in Hne. rewrite Hne, find_task_strip.
  destruct (_find_task_by_desc d (tasks st)) as [[i x]|] eqn:F; [|reflexivity].
  by rewrite (list_remove_found _ _ _ _ F).
Qed.

Lemma tool_complete tool o d now st :
  calls tool "completeTask" o -> field o "description" = JString d ->
  _execute_tool tool now st
  = match _find_task_by_desc d (tasks st) with
    | None => (Ret (error_body "not found"), st)
    | Some (i, x) =>
        (Ret (JObject [("ok", JBool true); ("task", Task.to_json (Task.complete x))]),
         completed_at i x st)
    end.
Proof.
  intros Hc Hd.
  rewrite (execute_complete _ _ _ _ _ Hc (description_arg_string _ _ Hd)).
  by rewrite find_task_strip.
Qed.

Lemma tool_delete tool o d now st :
  calls tool "deleteTask" o -> field o "description" = JString d ->
  _execute_tool tool now st
  = match _find_task_by_desc d (tasks st) with
    | None => (Ret (error_body "not found"), st)
    | Some (i, x) =>
        (Ret (JObject [("ok", JBool true);
                       ("deleted_description", JString (PyStr.strip d))]),
         removed_at i st)
    end.
Proof.
  intros Hc Hd.
  rewrite (execute_delete _ _ _ _ _ Hc (description_arg_string _ _ Hd)).
  by rewrite find_task_strip.
Qed.

(** A match for [d] in a well-formed store shows that [d] is not blank. *)
Lemma found_not_blank st d i x :
  well_formed st -> _find_task_by_desc d (tasks st) = Some (i, x) ->
  PyStr.strip d <> "".
Proof.
  intros Hwf F Hb. by rewrite (find_blank_None st d Hwf Hb) in F.
Qed.

(** * The claims *)

(** C4.  Lookup by description compares the trimmed, lower-cased argument
    with each trimmed, lower-cased stored description and returns the first
    task, in insertion order, for which they are equal, and nothing when
    there is none.  Completing by description changes only that task, and
    deleting by description removes only that task (one entry), through the
    executor for every description and through the REST handlers for every
    description that is not blank (a blank one is refused with 400 before the
    lookup); later tasks with the same normalized description stay as they
    are.  Without a match the executor answers "not found", the REST handlers
    404, and the store is unchanged. *)
Theorem lookup_resolves_first_match (d : string) (st : store)
    (o : list (string * json)) :
  field o "description" = JString d ->
  (forall i x,
      _find_task_by_desc d (tasks st) = Some (i, x) <->
      tasks st !! i = Some x
      /\ normalize (Task.description x) = normalize d
      /\ forall j y, tasks st !! j = Some y -> (j < i)%nat ->
           normalize (Task.description y) <> normalize d)
  /\ (_find_task_by_desc d (tasks st) = None <->
      Forall (fun y => normalize (Task.description y) <> normalize d) (tasks st))
  /\ (forall i x,
      _find_task_by_desc d (tasks st) = Some (i, x) ->
      (forall tool now, calls tool "completeTask" o ->
         (_execute_tool tool now st).2 = completed_at i x st)
      /\ (forall tool now, calls tool "deleteTask" o ->
         (_execute_tool tool now st).2 = removed_at i st)
      /\ (PyStr.strip d <> "" ->
         (complete_task_by_description (JObject o) st).2 = completed_at i x st
         /\ (delete_task_by_description (JObject o) st).2 = removed_at i st)
      /\ (forall j, j <> i -> tasks (completed_at i x st) !! j = tasks st !! j)
      /\ S (length (tasks (removed_at i st))) = length (tasks st)
      /\ (forall j, (j < i)%nat -> tasks (removed_at i st) !! j = tasks st !! j)
      /\ (forall j, (i <= j)%nat -> tasks (removed_at i st) !! j = tasks st !! S j))
  /\ (_find_task_by_desc d (tasks st) = None ->
      (forall tool now, calls tool "completeTask" o ->
         _execute_tool tool now st = (Ret (error_body "not found"), st))
      /\ (forall tool now, calls tool "deleteTask" o ->
         _execute_tool tool now st = (Ret (error_body "not found"), st))
      /\ (PyStr.strip d <> "" ->
         complete_task_by_description (JObject o) st
         = (Ret (error_body "task not found", 404), st)
         /\ delete_task_by_description (JObject o) st
            = (Ret (error_body "task not found", 404), st))).
Proof.
  intros Hd. split; [intros; apply find_task_Some|].
  split; [apply find_task_None|]. split.
  - intros i x F. pose proof (proj1 (find_task_Some _ _ _ _) F) as (Hi & _).
    split; [|split; [|split; [|split; [|split; [|split]]]]].
    + intros tool now Hc. by rewrite (tool_complete _ _ _ _ _ Hc Hd), F.
    + intros tool now Hc. by rewrite (tool_delete _ _ _ _ _ Hc Hd), F.
    + intros Hne. by rewrite (rest_complete _ _ _ Hd Hne), (rest_delete _ _ _ Hd Hne), F.
    + intros j Hj. simpl. by apply list_lookup_insert_ne.
    + simpl. rewrite length_delete by eauto.
      apply lookup_lt_Some in Hi. lia.
    + intros j Hj. simpl. by apply list_lookup_delete_lt.
    + intros j Hj. simpl. by apply list_lookup_delete_ge.
  - intros F. split; [|split].
    + intros tool now Hc. by rewrite (tool_complete _ _ _ _ _ Hc Hd), F.
    + intros tool now Hc. by rewrite (tool_delete _ _ _ _ _ Hc Hd), F.
    + intros Hne. by rewrite (rest_complete _ _ _ Hd Hne), (rest_delete _ _ _ Hd Hne), F.
Qed.

(** C5, with the result key as the code spells it.  For every deleteTask
    intent whose description parameter,
    once trimmed, matches a stored task under normalization, the executor
    removes the first such task and returns the dict
    [{"ok": True, "deleted_description": d}] where [d] is the trimmed
    parameter. *)
Theorem delete_tool_reports_trimmed_description (tool : json)
    (o : list (string * json)) (d now : string) (st : store) (i : nat)
    (x : Task.t) :
  calls tool "deleteTask" o ->
  field o "description" = JString d ->
  _find_task_by_desc (PyStr.strip d) (tasks st) = Some (i, x) ->
  _execute_tool tool now st
  = (Ret (JObject [("ok", JBool true);
                   ("deleted_description", JString (PyStr.strip d))]),
     removed_at i st)
  /\ tasks st !! i = Some x
  /\ normalize (Task.description x) = normalize d.
Proof.
  intros Hc Hd F. rewrite find_task_strip in F.
  rewrite (tool_delete _ _ _ _ _ Hc Hd), F. split; [reflexivity|].
  apply find_task_Some in F as (Hi & Hn & _). by split.
Qed.

(** C6, for the requests that carry a dict.  A creation request whose
    description is missing, [null], empty or blank once trimmed is refused:
    [POST /api/tasks] with a dict body (or with no body, or a falsy one)
    answers 400 with [{"error": "description is required"}], the executor's
    addTask with a [parameters] dict (or without the entry) returns
    [{"error": "description required"}], and in each case the task list and
    the id counter are as before.  A body that is truthy and not a dict, and
    a [parameters] entry that is present and not a dict, make the handler
    raise [AttributeError] instead, the store again being as before. *)
Theorem blank_description_is_rejected (body : json)
    (o : list (string * json)) (now : string) (st : store) :
  (Py.truthy body = false ->
   create_task body now st
   = (Ret (error_body "description is required", 400), st))
  /\ (blank (field o "description") ->
      create_task (JObject o) now st
      = (Ret (error_body "description is required", 400), st)
      /\ forall tool, calls tool "addTask" o ->
           _execute_tool tool now st
           = (Ret (error_body "description required"), st))
  /\ (Py.truthy body = true -> (forall o', body <> JObject o') ->
      create_task body now st = (Raise AttributeError, st))
  /\ (forall tool p, ill_typed_call tool "addTask" p ->
      _execute_tool tool now st = (Raise AttributeError, st)).
Proof.
  split; [intros Hf; unfold create_task, Py.or_; by rewrite Hf|].
  split; [|split; [apply rest_not_dict|]].
  - intros Hb. split; [by apply rest_blank|].
    intros tool Hc. by apply execute_add_blank with o.
  - intros tool p Hc. apply (execute_ill_typed _ _ _ _ _ Hc). by left.
Qed.

(** C7.  When the task a description resolves to is already completed,
    completing it again, by [PATCH /api/tasks/by-description] or by the
    completeTask intent, succeeds, returns that task, and leaves the whole
    store, the task included, as it was. *)
Theorem completing_completed_task_is_noop (o : list (string * json))
    (d : string) (st : store) (i : nat) (x : Task.t) :
  well_formed st ->
  field o "description" = JString d ->
  _find_task_by_desc d (tasks st) = Some (i, x) ->
  Task.completed x = true ->
  complete_task_by_description (JObject o) st
  = (Ret (Task.to_json x, 200), st)
  /\ forall tool now, calls tool "completeTask" o ->
       _execute_tool tool now st
       = (Ret (JObject [("ok", JBool true); ("task", Task.to_json x)]), st).
Proof.
  intros Hwf Hd F Hx.
  assert (completed_at i x st = st) as Hsame.
  { unfold completed_at. rewrite (complete_completed _ Hx).
    apply find_task_Some in F as (Hi & _).
    rewrite (list_insert_id _ _ _ Hi). apply store_eta. }
  split.
  - rewrite (rest_complete _ _ _ Hd (found_not_blank _ _ _ _ Hwf F)), F.
    by rewrite Hsame, (complete_completed _ Hx).
  - intros tool now Hc. rewrite (tool_complete _ _ _ _ _ Hc Hd), F.
    by rewrite Hsame, (complete_completed _ Hx).
Qed.

(** What the executor returns when it returns: an error dict with the store
    untouched, or a dict whose [ok] is [True] and that has no [error]. *)
Lemma execute_tool_result tool now st r st' :
  _execute_tool tool now st = (Ret r, st') ->
  (exists msg, r = error_body msg /\ st' = st)
  \/ (Py.get r "ok" = Ret (JBool true) /\ Py.get r "error" = Ret JNull).
Proof.
  unfold _execute_tool.
  destruct (_ ≫= _) as [[fn p]|]; [|discriminate].
  destruct (Py.eq_str fn "addTask").
  { destruct (description_arg p) as [desc|]; [|discriminate].
    destruct (String.eqb desc ""); intros [= <- <-]; eauto. }
  destruct (Py.eq_str fn "viewTasks"); [intros [= <- <-]; eauto|].
  destruct (Py.eq_str fn "completeTask").
  { destruct (description_arg p) as [desc|]; [|discriminate].
    destruct (_find_task_by_desc desc (tasks st)) as [[i x]|];
      intros [= <- <-]; eauto. }
  destruct (Py.eq_str fn "deleteTask"); [|intros [= <- <-]; eauto].
  destruct (description_arg p) as [desc|]; [|discriminate].
  destruct (_find_task_by_desc desc (tasks st)) as [[i x]|];
    [|intros [= <- <-]; eauto].
  destruct (list_remove x (tasks st)); [|discriminate].
  intros [= <- <-]; eauto.
Qed.

Lemma execute_unknown tool name o now st :
  calls tool name o -> name ∉ tool_names ->
  _execute_tool tool now st = (Ret (error_body "unknown"), st).
Proof.
  intros Hc Hn. unfold _execute_tool. rewrite (calls_args _ _ _ Hc).
  unfold tool_names in Hn. cbn [Py.eq_str].
  destruct (String.eqb_spec name "addTask") as [->|_];
    [exfalso; apply Hn; repeat constructor|].
  destruct (String.eqb_spec name "viewTasks") as [->|_];
    [exfalso; apply Hn; repeat constructor|].
  destruct (String.eqb_spec name "completeTask") as [->|_];
    [exfalso; apply Hn; repeat constructor|].
  destruct (String.eqb_spec name "deleteTask") as [->|_];
    [exfalso; apply Hn; repeat constructor|].
  reflexivity.
Qed.

(** C9.  Whenever the executor returns a dict with an [error] entry, the
    task list and the id counter are what they were before the call.  The
    error dicts are those of addTask with a blank description, of
    completeTask and deleteTask without a match, and of a function name
    outside the four. *)
Theorem error_results_change_nothing (tool : json) (now : string) (st : store) :
  (forall r st',
      _execute_tool tool now st = (Ret r, st') ->
      Py.get r "error" <> Ret JNull ->
      st' = st
      /\ exists msg, r = error_body msg
           /\ (msg = "description required" \/ msg = "not found"
               \/ msg = "unknown"))
  /\ (forall name o,
      calls tool name o -> name ∉ tool_names ->
      _execute_tool tool now st = (Ret (error_body "unknown"), st)).
Proof.
  split; [|intros name o; apply execute_unknown].
  intros r st' He Herr.
  destruct (execute_tool_result _ _ _ _ _ He) as [(msg & -> & ->)|[_ Hno]];
    [|contradiction].
  split; [reflexivity|]. exists msg. split; [reflexivity|].
  revert He. unfold _execute_tool.
  destruct (_ ≫= _) as [[fn p]|]; [|discriminate].
  destruct (Py.eq_str fn "addTask").
  { destruct (description_arg p) as [desc|]; [|discriminate].
    destruct (String.eqb desc ""); intros [= E]; eauto. }
  destruct (Py.eq_str fn "viewTasks"); [discriminate|].
  destruct (Py.eq_str fn "completeTask").
  { destruct (description_arg p) as [desc|]; [|discriminate].
    destruct (_find_task_by_desc desc (tasks st)) as [[i x]|];
      intros [= E]; eauto. }
  destruct (Py.eq_str fn "deleteTask"); [|intros [= E]; eauto].
  destruct (description_arg p) as [desc|]; [|discriminate].
  destruct (_find_task_by_desc desc (tasks st)) as [[i x]|];
    [|intros [= E]; eauto].
  destruct (list_remove x (tasks st)); discriminate.
Qed.

(** C10, for the intents whose [parameters] is a dict or is missing.  In
    every store the service can reach, a completeTask or deleteTask intent
    whose description is absent, [null] or blank makes the executor return
    [{"error": "not found"}] with the store unchanged: the empty string is
    looked up like any description, and no stored task has an empty
    normalized description, since both creation paths refuse a description
    that is empty once trimmed.  When the [parameters] entry is present and
    is not a dict, the executor raises [AttributeError] instead. *)
Theorem blank_lookup_is_not_found (rs : list request) (tool : json)
    (name now : string) :
  name = "completeTask" \/ name = "deleteTask" ->
  (forall o, calls tool name o -> blank (field o "description") ->
     _execute_tool tool now (run rs init)
     = (Ret (error_body "not found"), run rs init))
  /\ (forall p, ill_typed_call tool name p ->
     _execute_tool tool now (run rs init)
     = (Raise AttributeError, run rs init))
  /\ Forall (fun x => normalize (Task.description x) <> "") (tasks (run rs init))
  /\ _find_task_by_desc "" (tasks (run rs init)) = None.
Proof.
  intros Hname.
  pose proof (reachable_well_formed rs) as Hwf.
  pose proof (find_blank_None _ "" Hwf eq_refl) as Hnone.
  split; [|split; [|split; [|exact Hnone]]].
  - intros o Hc Hb. destruct Hname as [-> | ->].
    + by rewrite (execute_complete _ _ _ _ _ Hc (description_arg_blank _ Hb)), Hnone.
    + by rewrite (execute_delete _ _ _ _ _ Hc (description_arg_blank _ Hb)), Hnone.
  - intros p Hc. apply (execute_ill_typed _ _ _ _ _ Hc). by right.
  - destruct Hwf as [_ _ Hclean]. eapply Forall_impl; [exact Hclean|].
    intros x. apply clean_normalize.
Qed.

(** C3.  Along every sequence of requests served from the initial store, the
    ids of the tasks created, in creation order and whether or not the tasks
    were deleted since, are 1, 2, 3, ... up to the counter: strictly
    increasing and without repetition.  Each successful creation, by
    [POST /api/tasks] or by the addTask intent, gives the new task the
    current counter as id and adds one to the counter. *)
Theorem created_ids_are_sequential (rs : list request) :
  Task.id <$> created rs init
  = seqZ 1 (Z.of_nat (length (created rs init)))
  /\ next_id (run rs init) = 1 + Z.of_nat (length (created rs init))
  /\ StronglySorted Z.lt (Task.id <$> created rs init)
  /\ NoDup (Task.id <$> created rs init)
  /\ StronglySorted Z.lt (Task.id <$> tasks (run rs init))
  /\ (forall st body now b st',
        create_task body now st = (Ret (b, 201), st') ->
        exists desc,
          st' = appended desc now st
          /\ b = Task.to_json (Task.mk (next_id st) desc false now))
  /\ (forall st tool now r st',
        _execute_tool tool now st = (Ret r, st') ->
        Py.get tool "function" = Ret (JString "addTask") ->
        Py.get r "ok" = Ret (JBool true) ->
        exists desc,
          st' = appended desc now st
          /\ r = JObject [("ok", JBool true);
                          ("task", Task.to_json (Task.mk (next_id st) desc false now))]).
Proof.
  destruct (created_ids rs init well_formed_init) as [Hle Hids].
  simpl in Hle, Hids.
  assert (Z.of_nat (length (created rs init)) = next_id (run rs init) - 1) as Hlen.
  { rewrite <- (length_fmap Task.id), Hids, length_seqZ. lia. }
  split; [by rewrite Hlen|]. split; [lia|].
  split; [rewrite Hids; apply seqZ_sorted|].
  split; [rewrite Hids; apply NoDup_seqZ|].
  split; [apply (wf_sorted _ (reachable_well_formed rs))|].
  split.
  - intros st body now b st'. unfold create_task.
    destruct (description_arg _) as [desc|]; [|discriminate].
    destruct (String.eqb desc ""); [discriminate|].
    intros [= <- <-]. by exists desc.
  - intros st tool now r st'. unfold _execute_tool.
    destruct (Py.get tool "function") as [fn|]; [|discriminate]. simpl.
    destruct (Py.get_default tool "parameters" _) as [p|]; [|discriminate]. simpl.
    intros He [= ->]. revert He. cbn [Py.eq_str String.eqb Ascii.eqb Bool.eqb].
    destruct (description_arg p) as [desc|]; [|discriminate].
    destruct (String.eqb desc ""); [intros [= <- <-]; discriminate|].
    intros [= <- <-] _. by exists desc.
Qed.

(** C2, for the requests whose message can be read.  When the body is
    absent or falsy, or is a dict whose [message] is missing, falsy or a
    string, and the LLM client is not configured or the completion call
    raises, [POST /api/brain/execute] answers 200 with the body
    [{"mode": "text", "reply": "Sorry, I can't do that."}] and leaves the
    store alone: a failure of the LLM layer never becomes an error status.
    For every other body the handler raises [AttributeError] when it reads
    the message, before the LLM layer is reached and whatever the client
    is. *)
Theorem llm_failure_is_text_200 (client : llm_client) (body : json)
    (now : string) (st : store) :
  (readable body ->
   exists msg,
     message_arg (Py.or_ body (JObject [])) = Ret msg
     /\ (client = None
         \/ (exists create, client = Some create /\ create msg = CompletionRaises) ->
         brain_execute client body now st
         = (Ret (text_reply "Sorry, I can't do that.", 200), st)))
  /\ (~ readable body ->
      brain_execute client body now st = (Raise AttributeError, st)).
Proof.
  split.
  - intros (msg & Hmsg)%message_arg_readable. exists msg.
    split; [exact Hmsg|]. intros Hfail. unfold brain_execute. rewrite Hmsg.
    assert (llm_route client msg = JNull) as ->; [|reflexivity].
    destruct Hfail as [->|(create & -> & Hraise)]; [reflexivity|].
    unfold llm_route. by rewrite Hraise.
  - intros Hno. unfold brain_execute.
    destruct (message_arg _) as [msg|e] eqn:Hmsg.
    + destruct Hno. apply message_arg_readable. eauto.
    + by rewrite (message_arg_raise _ _ Hmsg).
Qed.

(** ** Routing *)

Lemma in_tool_names fn :
  Py.in_str_set fn tool_names = Ret true <->
  exists f, fn = JString f /\ f ∈ tool_names.
Proof.
  split.
  - destruct fn; simpl; try discriminate. intros [= Hex].
    exists s. split; [reflexivity|].
    repeat (apply orb_prop in Hex as [Hex|Hex];
            [apply String.eqb_eq in Hex as ->; repeat constructor|]).
    discriminate.
  - intros (f & -> & Hf). simpl. f_equal. unfold tool_names in Hf.
    repeat (apply elem_of_cons in Hf as [->|Hf]; [reflexivity|]).
    by apply not_elem_of_nil in Hf.
Qed.

Lemma parse_tool_Some content data :
  parse_tool content = Some data <->
  json_loads content = Some data /\ names_tool data.
Proof.
  unfold parse_tool. split.
  - destruct (json_loads content) as [v|]; [|discriminate].
    destruct v; try discriminate. rewrite get_field. simpl.
    destruct (Py.in_str_set _ _) as [[|]|] eqn:E; try discriminate.
    intros [= <-]. split; [reflexivity|].
    apply in_tool_names in E as (f & Hf & Hin).
    exists fields, f. split; [reflexivity|]. split; [|exact Hin].
    unfold field in Hf. by destruct (Py.assoc "function" fields); simplify_eq/=.
  - intros [-> (o & f & -> & Hf & Hin)].
    assert (Py.in_str_set (JString f) tool_names = Ret true) as E
      by (apply in_tool_names; eauto).
    rewrite get_field. unfold field. rewrite Hf.
    cbn [mbind outcome_bind Py.get_default default from_option id]. by rewrite E.
Qed.

Lemma parse_tool_None content :
  parse_tool content = None <->
  json_loads content = None
  \/ exists data, json_loads content = Some data /\ ~ names_tool data.
Proof.
  split.
  - intros Hnone. destruct (json_loads content) as [data|] eqn:E; [|by left].
    right. exists data. split; [reflexivity|]. intros Hn.
    assert (parse_tool content = Some data) as Hs by (by apply parse_tool_Some).
    congruence.
  - intros Hcase. destruct (parse_tool content) as [data|] eqn:E; [|reflexivity].
    apply parse_tool_Some in E as [Hl Hn].
    destruct Hcase as [Hnone|(data' & Hl' & Hn')]; [congruence|].
    rewrite Hl in Hl'. by simplify_eq.
Qed.

(** C1.  When the completion call returns, its text is first stripped of
    code fences.  If the stripped text decodes to a JSON object whose
    [function] is one of addTask, completeTask, deleteTask, viewTasks, the
    router returns the tool intent carrying that object, whatever its
    [parameters] entry is or whether it has one.  If the text does not
    decode, or decodes to anything else, the router returns the text reply
    whose reply is the stripped text itself. *)
Theorem llm_route_classifies (create : string -> completion)
    (message : string) (raw : option string) :
  create message = CompletionContent raw ->
  (forall o f,
      json_loads (_strip_fences (default "" raw)) = Some (JObject o) ->
      Py.assoc "function" o = Some (JString f) ->
      f ∈ tool_names ->
      llm_route (Some create) message = tool_intent (JObject o))
  /\ (json_loads (_strip_fences (default "" raw)) = None ->
      llm_route (Some create) message
      = text_reply (_strip_fences (default "" raw)))
  /\ (forall data,
      json_loads (_strip_fences (default "" raw)) = Some data ->
      ~ names_tool data ->
      llm_route (Some create) message
      = text_reply (_strip_fences (default "" raw))).
Proof.
  intros Hc. unfold llm_route. rewrite Hc. split; [|split].
  - intros o f Hl Hf Hin.
    assert (parse_tool (_strip_fences (default "" raw)) = Some (JObject o)) as ->;
      [|reflexivity].
    apply parse_tool_Some. split; [exact Hl|]. by exists o, f.
  - intros Hl.
    assert (parse_tool (_strip_fences (default "" raw)) = None) as ->;
      [|reflexivity].
    apply parse_tool_None. by left.
  - intros data Hl Hn.
    assert (parse_tool (_strip_fences (default "" raw)) = None) as ->;
      [|reflexivity].
    apply parse_tool_None. right. by exists data.
Qed.

Lemma llm_route_tool client msg tool :
  llm_route client msg = tool_intent tool -> names_tool tool.
Proof.
  unfold llm_route, tool_intent. destruct client as [create|]; [|discriminate].
  destruct (create msg) as [|c]; [discriminate|].
  destruct (parse_tool _) as [data|] eqn:E; [|discriminate].
  intros [= <-]. by apply parse_tool_Some in E as [_ Hn].
Qed.

(** ** Reply synthesis *)

(** [str(n)] is the decimal numeral of [n], and the only one. *)
Lemma decimal_of_nat n : decimal (PyStr.of_nat n) n.
Proof.
  assert (Decimal.unorm (Nat.to_uint n) = Nat.to_uint n) as Hnorm.
  { rewrite <- (DecimalNat.Unsigned.to_of (Nat.to_uint n)).
    by rewrite DecimalNat.Unsigned.of_to. }
  exists (Nat.to_uint n). split; [|split; [exact Hnorm|]].
  - apply NilZero.usu. rewrite <- Hnorm. apply DecimalFacts.unorm_nonnil.
  - apply DecimalNat.Unsigned.of_to.
Qed.

Lemma decimal_unique digits n : decimal digits n -> digits = PyStr.of_nat n.
Proof.
  intros (u & Hread & Hnorm & <-). unfold PyStr.of_nat.
  rewrite DecimalNat.Unsigned.to_of, Hnorm. symmetry. by apply NilZero.sus.
Qed.

Lemma ran_ok_eq o0 f r name :
  Py.assoc "function" o0 = Some (JString f) ->
  ran_ok (JObject o0) r name
  = if String.eqb f name then ok ← Py.get r "ok"; mret (Py.truthy ok)
    else Ret false.
Proof. intros Hf. unfold ran_ok, Py.index. by rewrite Hf. Qed.

Lemma description_arg_dict pv desc :
  description_arg pv = Ret desc -> exists o, pv = JObject o.
Proof. destruct pv; try discriminate. eauto. Qed.

Lemma params_present o0 desc :
  description_arg (default (JObject []) (Py.assoc "parameters" o0)) = Ret desc ->
  desc <> "" ->
  exists o d, Py.assoc "parameters" o0 = Some (JObject o)
    /\ Py.assoc "description" o = Some (JString d).
Proof.
  destruct (Py.assoc "parameters" o0) as [pv|]; simpl.
  - intros Hd Hne. destruct (description_arg_dict _ _ Hd) as [o ->].
    destruct (description_arg_inv _ _ Hd Hne) as (d & Hd' & _). eauto.
  - intros [= <-] Hne. by destruct Hne.
Qed.

Lemma quoted_description_string o0 o d :
  Py.assoc "parameters" o0 = Some (JObject o) ->
  Py.assoc "description" o = Some (JString d) ->
  quoted_description (JObject o0) = Ret d
  /\ (p ← Py.index (JObject o0) "parameters"; Py.index p "description")
     = Ret (JString d).
Proof.
  intros Hp Hd. unfold quoted_description, Py.index. rewrite Hp. simpl.
  by rewrite Hd.
Qed.

(** A call of one of the three functions that take a description either
    fails with an error dict, or succeeds, and then the intent carries a
    string description. *)
Lemma described_call o0 f now st r st' :
  well_formed st ->
  Py.assoc "function" o0 = Some (JString f) ->
  f = "addTask" \/ f = "completeTask" \/ f = "deleteTask" ->
  _execute_tool (JObject o0) now st = (Ret r, st') ->
  (exists msg, r = error_body msg)
  \/ (Py.get r "ok" = Ret (JBool true)
      /\ exists o d, Py.assoc "parameters" o0 = Some (JObject o)
           /\ Py.assoc "description" o = Some (JString d)).
Proof.
  intros Hwf Hf Hname. unfold _execute_tool. rewrite get_field. unfold field.
  rewrite Hf. cbn [mbind outcome_bind Py.get_default default from_option id mret outcome_ret].
  destruct (description_arg _) as [desc|] eqn:Hd.
  2:{ destruct Hname as [->|[->| ->]]; discriminate. }
  pose proof (description_arg_stripped _ _ Hd) as Hs.
  destruct Hname as [->|[->| ->]]; cbn [Py.eq_str String.eqb Ascii.eqb Bool.eqb].
  - destruct (String.eqb desc "") eqn:E; intros [= <- <-]; [left; eauto|].
    right. split; [reflexivity|]. apply eqb_empty_false in E.
    by eapply params_present.
  - destruct (_find_task_by_desc desc (tasks st)) as [[i x]|] eqn:F;
      intros [= <- <-]; [|left; eauto].
    right. split; [reflexivity|].
    pose proof (found_not_blank _ _ _ _ Hwf F) as Hne. rewrite Hs in Hne.
    by eapply params_present.
  - destruct (_find_task_by_desc desc (tasks st)) as [[i x]|] eqn:F;
      [|intros [= <- <-]; left; eauto].
    rewrite (list_remove_found _ _ _ _ F). intros [= <- <-].
    right. split; [reflexivity|].
    pose proof (found_not_blank _ _ _ _ Hwf F) as Hne. rewrite Hs in Hne.
    by eapply params_present.
Qed.

Lemma reply_error o0 f msg n :
  Py.assoc "function" o0 = Some (JString f) -> f <> "viewTasks" ->
  synthesize_reply (JObject o0) (error_body msg) n = Ret "OK".
Proof.
  intros Hf Hv. unfold synthesize_reply. rewrite !(ran_ok_eq _ _ _ _ Hf).
  apply String.eqb_neq in Hv.
  destruct (String.eqb f "addTask"), (String.eqb f "completeTask"),
    (String.eqb f "deleteTask");
    simpl; unfold Py.index; rewrite Hf; simpl; by rewrite Hv.
Qed.

Lemma reply_view o0 r n :
  Py.assoc "function" o0 = Some (JString "viewTasks") ->
  synthesize_reply (JObject o0) r n
  = Ret ("You have " ++ PyStr.of_nat n ++ " task(s).").
Proof.
  intros Hf. unfold synthesize_reply. rewrite !(ran_ok_eq _ _ _ _ Hf).
  unfold Py.index. rewrite Hf. reflexivity.
Qed.

Lemma reply_ok o0 f r n o d :
  Py.assoc "function" o0 = Some (JString f) ->
  Py.get r "ok" = Ret (JBool true) ->
  Py.assoc "parameters" o0 = Some (JObject o) ->
  Py.assoc "description" o = Some (JString d) ->
  (f = "addTask" ->
   synthesize_reply (JObject o0) r n = Ret ("Added “" ++ d ++ "”."))
  /\ (f = "completeTask" ->
      synthesize_reply (JObject o0) r n = Ret ("Marked “" ++ d ++ "” as done."))
  /\ (f = "deleteTask" ->
      synthesize_reply (JObject o0) r n = Ret ("Deleted “" ++ d ++ "”.")).
Proof.
  intros Hf Hok Hp Hd.
  destruct (quoted_description_string _ _ _ Hp Hd) as [Hq _].
  unfold synthesize_reply. rewrite !(ran_ok_eq _ _ _ _ Hf), Hok, Hq.
  split; [|split]; intros ->; reflexivity.
Qed.

(** C8.  When the router returned a tool intent and the executor returned a
    result, the endpoint answers 200 with the intent, the result and a
    reply.  After a successful addTask, completeTask or deleteTask the reply
    is the matching template around [tool['parameters']['description']], as
    the intent carries it; for viewTasks it is "You have N task(s)." where N
    is the decimal numeral of the number of tasks now stored; after a result
    without [ok] it is "OK". *)
Theorem reply_synthesis (client : llm_client) (body : json) (now msg : string)
    (st st' : store) (tool r : json) :
  well_formed st ->
  message_arg (Py.or_ body (JObject [])) = Ret msg ->
  llm_route client msg = tool_intent tool ->
  _execute_tool tool now st = (Ret r, st') ->
  exists f reply,
    Py.get tool "function" = Ret (JString f)
    /\ f ∈ tool_names
    /\ brain_execute client body now st
       = (Ret (JObject [("mode", JString "tool"); ("tool", tool);
                        ("result", r); ("reply", JString reply)], 200), st')
    /\ (Py.get r "ok" = Ret (JBool true) -> f <> "viewTasks" ->
        exists d,
          (p ← Py.index tool "parameters"; Py.index p "description")
          = Ret (JString d)
          /\ (f = "addTask" -> reply = "Added “" ++ d ++ "”.")
          /\ (f = "completeTask" -> reply = "Marked “" ++ d ++ "” as done.")
          /\ (f = "deleteTask" -> reply = "Deleted “" ++ d ++ "”."))
    /\ (f = "viewTasks" ->
        exists digits,
          reply = "You have " ++ digits ++ " task(s)."
          /\ decimal digits (length (tasks st')))
    /\ (Py.get r "ok" = Ret JNull -> reply = "OK").
Proof.
  intros Hwf Hmsg Hroute He.
  destruct (llm_route_tool _ _ _ Hroute) as (o0 & f & -> & Hf & Hin).
  assert (forall reply,
    synthesize_reply (JObject o0) r (length (tasks st')) = Ret reply ->
    brain_execute client body now st
    = (Ret (JObject [("mode", JString "tool"); ("tool", JObject o0);
                     ("result", r); ("reply", JString reply)], 200), st'))
    as Hrun.
  { intros reply Hr. unfold brain_execute. rewrite Hmsg, Hroute.
    cbn -[_execute_tool synthesize_reply]. by rewrite He, Hr. }
  assert (Py.get (JObject o0) "function" = Ret (JString f)) as Hget.
  { rewrite get_field. unfold field. by rewrite Hf. }
  exists f.
  destruct (decide (f = "viewTasks")) as [->|Hv].
  - eexists. split; [exact Hget|]. split; [exact Hin|].
    split; [apply Hrun, reply_view, Hf|].
    split; [intros _ Hne; by destruct Hne|].
    split; [intros _; eexists; split; [reflexivity | apply decimal_of_nat]|].
    revert He. unfold _execute_tool. rewrite Hget.
    cbn [mbind outcome_bind Py.get_default mret outcome_ret Py.eq_str
         String.eqb Ascii.eqb Bool.eqb].
    intros [= <- _]. discriminate.
  - assert (f = "addTask" \/ f = "completeTask" \/ f = "deleteTask") as Hname.
    { unfold tool_names in Hin.
      repeat (apply elem_of_cons in Hin as [->|Hin];
              [first [by eauto | by destruct Hv]|]).
      by apply not_elem_of_nil in Hin. }
    destruct (described_call _ _ _ _ _ _ Hwf Hf Hname He)
      as [(m & ->)|(Hok & o & d & Hp & Hd)].
    + exists "OK". split; [exact Hget|]. split; [exact Hin|].
      split; [by apply Hrun, (reply_error _ f)|].
      split; [discriminate|]. split; [intros; contradiction | reflexivity].
    + destruct (reply_ok _ _ r (length (tasks st')) _ _ Hf Hok Hp Hd)
        as (Hadd & Hmark & Hdel).
      destruct (quoted_description_string _ _ _ Hp Hd) as [_ Hq].
      destruct Hname as [->|[->| ->]].
      * eexists. split; [exact Hget|]. split; [exact Hin|].
        split; [by apply Hrun, Hadd|].
        split; [|split; [intros; contradiction | rewrite Hok; discriminate]].
        intros _ _. exists d. split; [exact Hq|].
        split; [reflexivity|]. split; discriminate.
      * eexists. split; [exact Hget|]. split; [exact Hin|].
        split; [by apply Hrun, Hmark|].
        split; [|split; [intros; contradiction | rewrite Hok; discriminate]].
        intros _ _. exists d. split; [exact Hq|].
        split; [discriminate|]. split; [reflexivity | discriminate].
      * eexists. split; [exact Hget|]. split; [exact Hin|].
        split; [by apply Hrun, Hdel|].
        split; [|split; [intros; contradiction | rewrite Hok; discriminate]].
        intros _ _. exists d. split; [exact Hq|].
        split; [discriminate|]. split; [discriminate | reflexivity].
Qed.

(** * Further properties of the code *)

(** ** Strings, continued *)

Ltac unfold_app := rewrite ?string_app_cons, ?string_app_nil.

Lemma string_app_assoc (a b c : string) : (a ++ b) ++ c = a ++ b ++ c.
Proof.
  induction a as [|x a IH]; unfold_app; [reflexivity | by rewrite IH].
Qed.

Lemma string_app_nonempty (a : string) c t : a ++ String c t <> "".
Proof. by destruct a. Qed.

Section StripFacts.

Variable p : ascii -> bool.

Lemma lstrip_by_app_keep a c t :
  p c = false ->
  PyStr.lstrip_by p (a ++ String c t) = PyStr.lstrip_by p a ++ String c t.
Proof.
  intros Hc. induction a as [|x a IH]; unfold_app; simpl; [by rewrite Hc|].
  destruct (p x); [exact IH | reflexivity].
Qed.

Lemma rstrip_by_cons x b :
  PyStr.rstrip_by p b <> "" ->
  PyStr.rstrip_by p (String x b) = String x (PyStr.rstrip_by p b).
Proof. intros Hb. simpl. by destruct (PyStr.rstrip_by p b). Qed.

Lemma rstrip_by_app a b :
  PyStr.rstrip_by p b <> "" ->
  PyStr.rstrip_by p (a ++ b) = a ++ PyStr.rstrip_by p b.
Proof.
  intros Hb. induction a as [|x a IH]; unfold_app; [reflexivity|].
  rewrite rstrip_by_cons; rewrite IH; [reflexivity|].
  destruct a; unfold_app; [exact Hb | discriminate].
Qed.

Lemma lstrip_by_cons_drop c s :
  p c = true -> PyStr.lstrip_by p (String c s) = PyStr.lstrip_by p s.
Proof. intros Hc. simpl. by rewrite Hc. Qed.

Lemma after_newline_lstrip a :
  PyStr.after_newline a = None ->
  PyStr.after_newline (PyStr.lstrip_by p a) = None.
Proof.
  induction a as [|x a IH]; unfold_app; simpl; [done|].
  destruct (Ascii.eqb x "010") eqn:E; [discriminate|]. intros Hn.
  destruct (p x); [by apply IH|]. simpl. by rewrite E.
Qed.

End StripFacts.

Lemma after_newline_app a t :
  PyStr.after_newline a = None ->
  PyStr.after_newline (a ++ String "010" t) = Some t.
Proof.
  induction a as [|x a IH]; unfold_app; simpl; [reflexivity|].
  destruct (Ascii.eqb x "010"); [discriminate | exact IH].
Qed.

(** A text that begins and ends with ASCII characters other than whitespace
    is its own [strip]. *)
Lemma strip_plain_ends a x c :
  plain a -> plain c ->
  PyStr.strip (String a (x ++ String c "")) = String a (x ++ String c "").
Proof.
  intros Ha Hc. unfold PyStr.strip. rewrite lstrip_plain by done.
  by rewrite <- string_app_cons, rstrip_app_plain.
Qed.

Lemma plain_backtick : plain backtick.
Proof. split; [unfold ascii7; vm_compute; lia | reflexivity]. Qed.

(** ** Code fences *)

Lemma strip_fences_trimmed s : PyStr.strip (_strip_fences s) = _strip_fences s.
Proof.
  unfold _strip_fences. destruct (String.eqb s "") eqn:E.
  - apply String.eqb_eq in E as ->. reflexivity.
  - apply strip_idem.
Qed.

Lemma strip_fences_block (tag body : string) :
  PyStr.after_newline tag = None ->
  _strip_fences ("```" ++ tag ++ String "010" (body ++ String "010" "```"))
  = PyStr.strip body.
Proof.
  intros Htag. set (nl := "010"%char). set (bt := Ascii.eqb backtick).
  set (tail := body ++ String nl "```").
  assert (forall x : string, x ++ String nl tail <> "") as Hne
    by (intros x; apply string_app_nonempty).
  assert (tail <> "") as Htail by apply string_app_nonempty.
  (* the whole text is already trimmed *)
  assert (PyStr.strip ("```" ++ tag ++ String nl tail)
          = "```" ++ tag ++ String nl tail) as Hstrip.
  { assert ("```" ++ tag ++ String nl tail
            = String backtick
                (("``" ++ tag ++ String nl (body ++ String nl "``"))
                 ++ String backtick "")) as ->
      by (unfold tail; rewrite !string_app_assoc; unfold_app;
          by rewrite !string_app_assoc).
    apply strip_plain_ends; apply plain_backtick. }
  (* without its backticks *)
  assert (PyStr.strip_by bt ("```" ++ tag ++ String nl tail)
          = PyStr.lstrip_by bt tag ++ String nl (body ++ String nl "")) as Hticks.
  { unfold PyStr.strip_by. unfold_app.
    rewrite !(lstrip_by_cons_drop bt "`"%char) by reflexivity.
    rewrite (lstrip_by_app_keep bt tag nl) by reflexivity.
    assert (PyStr.rstrip_by bt tail = body ++ String nl "") as Ht
      by (unfold tail; by rewrite rstrip_by_app).
    assert (PyStr.rstrip_by bt (String nl tail)
            = String nl (body ++ String nl "")) as Hnl.
    { rewrite rstrip_by_cons; rewrite Ht; [reflexivity|].
      apply string_app_nonempty. }
    rewrite rstrip_by_app; by rewrite Hnl. }
  unfold _strip_fences.
  replace (String.eqb ("```" ++ tag ++ String nl tail) "") with false
    by (unfold_app; reflexivity).
  rewrite Hstrip.
  replace (PyStr.startswith "```" ("```" ++ tag ++ String nl tail)) with true
    by (unfold_app; unfold PyStr.startswith; cbn;
        by destruct (tag ++ String nl tail)).
  fold bt. rewrite Hticks. unfold PyStr.split1_last.
  rewrite after_newline_app by (by apply after_newline_lstrip).
  by apply strip_app_space1.
Qed.

Lemma strip_fences_plain s :
  PyStr.startswith "```" (PyStr.strip s) = false ->
  _strip_fences s = PyStr.strip s.
Proof.
  intros Hs. unfold _strip_fences. destruct (String.eqb s "") eqn:E.
  - apply String.eqb_eq in E as ->. reflexivity.
  - rewrite Hs. apply strip_idem.
Qed.

(** X1.  A Markdown code block is unwrapped: the text made of three
    backticks, an info string without a line feed, a line feed, a body, a
    line feed and three closing backticks is reduced to the trimmed body.
    Hence the router gives the same answer for a reply wrapped in a code
    block as for the bare reply, when the bare reply does not itself begin
    with a fence. *)
Theorem code_block_is_unwrapped (message tag body : string) :
  PyStr.after_newline tag = None ->
  _strip_fences ("```" ++ tag ++ String "010" (body ++ String "010" "```"))
  = PyStr.strip body
  /\ (PyStr.startswith "```" (PyStr.strip body) = false ->
      llm_route
        (Some (fun _ => CompletionContent
                 (Some ("```" ++ tag
                        ++ String "010" (body ++ String "010" "```")))))
        message
      = llm_route (Some (fun _ => CompletionContent (Some body))) message).
Proof.
  intros Htag. split; [by apply strip_fences_block|].
  intros Hbody. unfold llm_route. simpl.
  by rewrite (strip_fences_block _ _ Htag), (strip_fences_plain _ Hbody).
Qed.

(** ** Lookup, creation, completion and deletion together *)

(** X3.  Lookup does not distinguish descriptions that differ in
    surrounding whitespace, whatever [str.lower] does; and for a [str.lower]
    that is idempotent and leaves whitespace at the ends alone (it commutes
    with [strip]), as Python's does and as the ASCII one does, it does not
    distinguish descriptions that differ in letter case either: looking up
    the trimmed, the lower-cased or the normalized form of a description
    finds what the description finds. *)
Theorem lookup_ignores_case_and_padding (d : string) (ts : list Task.t) :
  _find_task_by_desc (PyStr.strip d) ts = _find_task_by_desc d ts
  /\ ((forall s, str_lower (str_lower s) = str_lower s) ->
      (forall s, PyStr.strip (str_lower s) = str_lower (PyStr.strip s)) ->
      _find_task_by_desc (str_lower d) ts = _find_task_by_desc d ts
      /\ _find_task_by_desc (normalize d) ts = _find_task_by_desc d ts).
Proof.
  split; [apply find_task_strip|]. intros Hidem Hcomm.
  unfold _find_task_by_desc. split.
  - replace (normalize (str_lower d)) with (normalize d); [reflexivity|].
    unfold normalize. by rewrite Hcomm, Hidem.
  - replace (normalize (normalize d)) with (normalize d); [reflexivity|].
    unfold normalize. by rewrite Hcomm, strip_idem, Hidem.
Qed.

(** X4.  Every stored task is reachable by its own description, unless an
    earlier task with the same normalized description shadows it: the lookup
    returns a task at or before its position whose normalized description is
    the same. *)
Theorem stored_task_is_found_or_shadowed (ts : list Task.t) (i : nat)
    (x : Task.t) :
  ts !! i = Some x ->
  exists j y,
    _find_task_by_desc (Task.description x) ts = Some (j, y)
    /\ (j <= i)%nat
    /\ normalize (Task.description y) = normalize (Task.description x).
Proof.
  intros Hi.
  destruct (_find_task_by_desc (Task.description x) ts) as [[j y]|] eqn:F.
  - exists j, y. split; [reflexivity|].
    apply find_task_Some in F as (Hj & Hy & Hmin). split; [|exact Hy].
    destruct (decide (j <= i)%nat) as [|Hgt]; [done|].
    exfalso. apply (Hmin i x Hi); [lia | reflexivity].
  - apply find_task_None in F. rewrite Forall_lookup in F.
    by destruct (F i x Hi).
Qed.

Lemma find_task_snoc d ts x :
  normalize (Task.description x) = normalize d ->
  _find_task_by_desc d (ts ++ [x])
  = match _find_task_by_desc d ts with
    | Some r => Some r
    | None => Some (length ts, x)
    end.
Proof.
  intros Hx. unfold _find_task_by_desc.
  destruct (list_find _ ts) as [[i y]|] eqn:F.
  - by apply list_find_app_l.
  - rewrite list_find_app_r by exact F. simpl.
    destruct (decide _) as [|Hn]; [reflexivity | contradiction].
Qed.

Lemma rest_create o d now st :
  field o "description" = JString d -> PyStr.strip d <> "" ->
  create_task (JObject o) now st
  = (Ret (Task.to_json (Task.mk (next_id st) (PyStr.strip d) false now), 201),
     appended (PyStr.strip d) now st).
Proof.
  intros Hd Hne. unfold create_task.
  rewrite or_dict, (description_arg_string _ _ Hd).
  apply eqb_empty_false in Hne. by rewrite Hne.
Qed.

Lemma find_task_appended d now st :
  _find_task_by_desc d (tasks (appended (PyStr.strip d) now st))
  = match _find_task_by_desc d (tasks st) with
    | Some r => Some r
    | None =>
        Some (length (tasks st), Task.mk (next_id st) (PyStr.strip d) false now)
    end.
Proof.
  simpl. apply find_task_snoc. simpl. unfold normalize. by rewrite strip_idem.
Qed.

(** X5.  After a creation with a description that is not blank, by
    [POST /api/tasks] (which answers 201 with the new task) or by the addTask
    intent, looking the description up succeeds: it finds the task that
    already matched, if there was one, and otherwise the new task, which is
    last in the list, not completed, and carries the trimmed description. *)
Theorem created_task_is_found (o : list (string * json)) (d now : string)
    (st : store) :
  field o "description" = JString d ->
  PyStr.strip d <> "" ->
  create_task (JObject o) now st
  = (Ret (Task.to_json (Task.mk (next_id st) (PyStr.strip d) false now), 201),
     appended (PyStr.strip d) now st)
  /\ (forall tool, calls tool "addTask" o ->
        (_execute_tool tool now st).2 = appended (PyStr.strip d) now st)
  /\ _find_task_by_desc d (tasks (appended (PyStr.strip d) now st))
     = match _find_task_by_desc d (tasks st) with
       | Some r => Some r
       | None =>
           Some (length (tasks st),
                 Task.mk (next_id st) (PyStr.strip d) false now)
       end.
Proof.
  intros Hd Hne. split; [|split].
  - by apply rest_create.
  - intros tool Hc. by rewrite (execute_add_string _ _ _ _ _ Hc Hd Hne).
  - apply find_task_appended.
Qed.

(** X6.  After the task a description resolves to is deleted, looking the
    description up again fails exactly when no other task has the same
    normalized description; when it succeeds, it returns a task that stood
    after the deleted one. *)
Theorem lookup_after_delete (d : string) (st : store) (i : nat) (x : Task.t) :
  _find_task_by_desc d (tasks st) = Some (i, x) ->
  (_find_task_by_desc d (tasks (removed_at i st)) = None <->
   forall j y, j <> i -> tasks st !! j = Some y ->
     normalize (Task.description y) <> normalize d)
  /\ (forall j y,
        _find_task_by_desc d (tasks (removed_at i st)) = Some (j, y) ->
        (i <= j)%nat /\ tasks st !! S j = Some y
        /\ normalize (Task.description y) = normalize d).
Proof.
  intros (Hi & Hx & Hmin)%find_task_Some. simpl. split.
  - rewrite find_task_None, Forall_lookup. split.
    + intros Hnone j y Hj Hy.
      destruct (decide (j < i)%nat) as [Hlt|Hge]; [by apply (Hmin j y)|].
      destruct j as [|j]; [lia|].
      apply (Hnone j y). by rewrite list_lookup_delete_ge by lia.
    + intros Hother k y Hk.
      destruct (decide (k < i)%nat) as [Hlt|Hge].
      * rewrite list_lookup_delete_lt in Hk by exact Hlt.
        apply (Hother k y); [lia | exact Hk].
      * rewrite list_lookup_delete_ge in Hk by lia.
        apply (Hother (S k) y); [lia | exact Hk].
  - intros j y (Hj & Hy & _)%find_task_Some.
    destruct (decide (j < i)%nat) as [Hlt|Hge].
    + rewrite list_lookup_delete_lt in Hj by exact Hlt.
      by destruct (Hmin j y Hj Hlt).
    + rewrite list_lookup_delete_ge in Hj by lia. split; [lia|]. by split.
Qed.



Lemma rest_complete_arg o desc st :
  description_arg (JObject o) = Ret desc -> desc <> "" ->
  complete_task_by_description (JObject o) st
  = match _find_task_by_desc desc (tasks st) with
    | None => (Ret (error_body "task not found", 404), st)
    | Some (i, x) =>
        (Ret (Task.to_json (Task.complete x), 200), completed_at i x st)
    end.
Proof.
  intros Hd Hne. unfold complete_task_by_description.
  rewrite or_dict, Hd. apply eqb_empty_false in Hne. rewrite Hne.
  by destruct (_find_task_by_desc desc (tasks st)) as [[i x]|].
Qed.

Lemma rest_delete_arg o desc st :
  description_arg (JObject o) = Ret desc -> desc <> "" ->
  delete_task_by_description (JObject o) st
  = match _find_task_by_desc desc (tasks st) with
    | None => (Ret (error_body "task not found", 404), st)
    | Some (i, x) =>
        (Ret (JObject [("ok", JBool true);
                       ("deleted_description", JString desc)], 200),
         removed_at i st)
    end.
Proof.
  intros Hd Hne. unfold delete_task_by_description.
  rewrite or_dict, Hd. apply eqb_empty_false in Hne. rewrite Hne.
  destruct (_find_task_by_desc desc (tasks st)) as [[i x]|] eqn:F; [|reflexivity].
  by rewrite (list_remove_found _ _ _ _ F).
Qed.

Lemma rest_guard o st :
  description_arg (JObject o) = Ret "" ->
  complete_task_by_description (JObject o) st
  = (Ret (error_body "description is required", 400), st)
  /\ delete_task_by_description (JObject o) st
     = (Ret (error_body "description is required", 400), st).
Proof.
  intros Hd. unfold complete_task_by_description, delete_task_by_description.
  by rewrite or_dict, Hd.
Qed.

Lemma rest_raise o e now st :
  description_arg (JObject o) = Raise e ->
  create_task (JObject o) now st = (Raise e, st)
  /\ complete_task_by_description (JObject o) st = (Raise e, st)
  /\ delete_task_by_description (JObject o) st = (Raise e, st).
Proof.
  intros Hd.
  unfold create_task, complete_task_by_description, delete_task_by_description.
  by rewrite or_dict, Hd.
Qed.

Lemma execute_raise tool name o e now st :
  calls tool name o ->
  name = "addTask" \/ name = "completeTask" \/ name = "deleteTask" ->
  description_arg (JObject o) = Raise e ->
  _execute_tool tool now st = (Raise e, st).
Proof.
  intros Hc Hname Hd. unfold _execute_tool. rewrite (calls_args _ _ _ Hc).
  destruct Hname as [->|[->| ->]];
    cbn [Py.eq_str String.eqb Ascii.eqb Bool.eqb]; by rewrite Hd.
Qed.


Lemma delete_last {A} (l : list A) (x : A) : delete (length l) (l ++ [x])%list = l.
Proof.
  induction l as [|y l IH]; [reflexivity|].
  change (y :: delete (length l) (l ++ [x])%list = y :: l). by rewrite IH.
Qed.

(** X8.  Creating a task under a description nothing matched and then
    deleting by that description restores the task list; only the id
    counter keeps the trace of the creation. *)
Theorem create_then_delete_restores_tasks (o : list (string * json))
    (d now : string) (st : store) :
  field o "description" = JString d ->
  PyStr.strip d <> "" ->
  _find_task_by_desc d (tasks st) = None ->
  delete_task_by_description (JObject o) (create_task (JObject o) now st).2
  = (Ret (JObject [("ok", JBool true);
                   ("deleted_description", JString (PyStr.strip d))], 200),
     {| tasks := tasks st; next_id := next_id st + 1 |}).
Proof.
  intros Hd Hne Hnone.
  pose proof (find_task_appended d now st) as Hfind.
  rewrite Hnone in Hfind. rewrite (rest_create _ _ _ _ Hd Hne). cbn [snd].
  rewrite (rest_delete _ _ _ Hd Hne), Hfind. unfold removed_at, appended.
  cbn [tasks next_id]. by rewrite delete_last.
Qed.

(** X9.  [PATCH] and [DELETE /api/tasks/by-description] refuse a description
    that is absent, [null], empty or blank with 400 and
    [{"error": "description is required"}] before any lookup, whatever the
    store holds, and leave the store alone. *)
Theorem blank_description_stops_patch_and_delete (o : list (string * json))
    (st : store) :
  blank (field o "description") ->
  complete_task_by_description (JObject o) st
  = (Ret (error_body "description is required", 400), st)
  /\ delete_task_by_description (JObject o) st
     = (Ret (error_body "description is required", 400), st).
Proof. intros Hb. by apply rest_guard, description_arg_blank. Qed.

(** ** Exceptions *)

Lemma execute_tool_raise tool now st e st' :
  _execute_tool tool now st = (Raise e, st') -> e = AttributeError /\ st' = st.
Proof.
  unfold _execute_tool.
  destruct tool; simpl; try (by intros [= <- <-]).
  destruct (Py.eq_str _ "addTask").
  { destruct (description_arg _) as [desc|] eqn:Hd.
    - destruct (String.eqb desc ""); discriminate.
    - intros [= <- <-]. by apply description_arg_raise in Hd. }
  destruct (Py.eq_str _ "viewTasks"); [discriminate|].
  destruct (Py.eq_str _ "completeTask").
  { destruct (description_arg _) as [desc|] eqn:Hd.
    - destruct (_find_task_by_desc desc (tasks st)) as [[i x]|]; discriminate.
    - intros [= <- <-]. by apply description_arg_raise in Hd. }
  destruct (Py.eq_str _ "deleteTask"); [|discriminate].
  destruct (description_arg _) as [desc|] eqn:Hd.
  - destruct (_find_task_by_desc desc (tasks st)) as [[i x]|] eqn:F;
      [|discriminate].
    by rewrite (list_remove_found _ _ _ _ F).
  - intros [= <- <-]. by apply description_arg_raise in Hd.
Qed.

Lemma rest_handlers_raise body now st e st' :
  create_task body now st = (Raise e, st')
  \/ complete_task_by_description body st = (Raise e, st')
  \/ delete_task_by_description body st = (Raise e, st') ->
  e = AttributeError /\ st' = st.
Proof.
  unfold create_task, complete_task_by_description, delete_task_by_description.
  destruct (description_arg _) as [desc|] eqn:Hd.
  - destruct (String.eqb desc ""); [intros [|[|]]; discriminate|].
    destruct (_find_task_by_desc desc (tasks st)) as [[i x]|] eqn:F;
      [|intros [|[|]]; discriminate].
    rewrite (list_remove_found _ _ _ _ F). intros [|[|]]; discriminate.
  - apply description_arg_raise in Hd as ->.
    intros [H|[H|H]]; by injection H as <- <-.
Qed.

Lemma execute_known tool now st r st' :
  names_tool tool ->
  _execute_tool tool now st = (Ret r, st') ->
  r <> error_body "unknown".
Proof.
  intros (o & f & -> & Hf & Hin). unfold _execute_tool.
  rewrite get_field. unfold field. rewrite Hf.
  cbn [mbind outcome_bind Py.get_default default from_option id mret outcome_ret].
  unfold tool_names in Hin.
  repeat (apply elem_of_cons in Hin as [->|Hin]);
    [..|by apply not_elem_of_nil in Hin];
    cbn [Py.eq_str String.eqb Ascii.eqb Bool.eqb].
  - destruct (description_arg _) as [desc|]; [|discriminate].
    destruct (String.eqb desc ""); intros [= <- <-]; discriminate.
  - destruct (description_arg _) as [desc|]; [|discriminate].
    destruct (_find_task_by_desc desc (tasks st)) as [[i x]|];
      intros [= <- <-]; discriminate.
  - destruct (description_arg _) as [desc|]; [|discriminate].
    destruct (_find_task_by_desc desc (tasks st)) as [[i x]|];
      [|intros [= <- <-]; discriminate].
    destruct (list_remove x (tasks st)); [|discriminate].
    intros [= <- <-]; discriminate.
  - intros [= <- <-]; discriminate.
Qed.

Lemma llm_route_shape client msg :
  llm_route client msg = JNull
  \/ (exists c, llm_route client msg = text_reply c /\ PyStr.strip c = c)
  \/ (exists data, llm_route client msg = tool_intent data /\ names_tool data).
Proof.
  unfold llm_route. destruct client as [create|]; [|by left].
  destruct (create msg) as [|c]; [by left|].
  destruct (parse_tool _) as [data|] eqn:E.
  - right; right. exists data. split; [reflexivity|].
    by apply parse_tool_Some in E as [_ Hn].
  - right; left. eexists. split; [reflexivity|]. apply strip_fences_trimmed.
Qed.

Lemma brain_execute_none client body now st msg :
  message_arg (Py.or_ body (JObject [])) = Ret msg ->
  llm_route client msg = JNull ->
  brain_execute client body now st
  = (Ret (text_reply "Sorry, I can't do that.", 200), st).
Proof. intros Hm Hr. unfold brain_execute. by rewrite Hm, Hr. Qed.

Lemma brain_execute_text client body now st msg c :
  message_arg (Py.or_ body (JObject [])) = Ret msg ->
  llm_route client msg = text_reply c ->
  brain_execute client body now st = (Ret (text_reply c, 200), st).
Proof. intros Hm Hr. unfold brain_execute. by rewrite Hm, Hr. Qed.

Lemma brain_execute_tool client body now st msg tool :
  message_arg (Py.or_ body (JObject [])) = Ret msg ->
  llm_route client msg = tool_intent tool ->
  brain_execute client body now st
  = match _execute_tool tool now st with
    | (Raise e, st') => (Raise e, st')
    | (Ret r, st') =>
        match synthesize_reply tool r (length (tasks st')) with
        | Raise e => (Raise e, st')
        | Ret reply =>
            (Ret (JObject [("mode", JString "tool"); ("tool", tool);
                           ("result", r); ("reply", JString reply)], 200), st')
        end
    end.
Proof. intros Hm Hr. unfold brain_execute. by rewrite Hm, Hr. Qed.

Lemma synthesize_reply_returns tool now st r st' n :
  well_formed st -> names_tool tool ->
  _execute_tool tool now st = (Ret r, st') ->
  exists reply, synthesize_reply tool r n = Ret reply.
Proof.
  intros Hwf (o0 & f & -> & Hf & Hin) He.
  destruct (decide (f = "viewTasks")) as [->|Hv].
  { eexists. by apply reply_view. }
  assert (f = "addTask" \/ f = "completeTask" \/ f = "deleteTask") as Hname.
  { unfold tool_names in Hin.
    repeat (apply elem_of_cons in Hin as [->|Hin];
            [first [by eauto | by destruct Hv]|]).
    by apply not_elem_of_nil in Hin. }
  destruct (described_call _ _ _ _ _ _ Hwf Hf Hname He)
    as [(m & ->)|(Hok & o & d & Hp & Hd)].
  - exists "OK". by apply (reply_error _ f).
  - destruct (reply_ok _ _ r n _ _ Hf Hok Hp Hd) as (Hadd & Hmark & Hdel).
    destruct Hname as [->|[->| ->]]; eauto.
Qed.

(** X10.  In a store satisfying the invariant, a request that ends in an
    uncaught exception has changed nothing, and the exception is an
    [AttributeError] raised while reading the JSON it was given: no handler
    fails half-way through an update, [tasks.remove] never raises
    [ValueError], and reply synthesis never raises [KeyError]. *)
Theorem failed_request_changes_nothing (r : request) (st st' : store) (e : exn) :
  well_formed st ->
  handle r st = (Raise e, st') ->
  e = AttributeError /\ st' = st.
Proof.
  intros Hwf. destruct r as [|body now|body|body|client body now]; simpl.
  - discriminate.
  - intros He. apply (rest_handlers_raise body now st). by left.
  - intros He. apply (rest_handlers_raise body "" st). right; by left.
  - intros He. apply (rest_handlers_raise body "" st). right; by right.
  - destruct (message_arg (Py.or_ body (JObject []))) as [msg|e'] eqn:Hm.
    2:{ unfold brain_execute. rewrite Hm. intros [= <- <-].
        by apply message_arg_raise in Hm. }
    destruct (llm_route_shape client msg) as [Hr|[(c & Hr & _)|(tool & Hr & Hn)]].
    + by rewrite (brain_execute_none _ _ _ _ _ Hm Hr).
    + by rewrite (brain_execute_text _ _ _ _ _ _ Hm Hr).
    + rewrite (brain_execute_tool _ _ _ _ _ _ Hm Hr).
      destruct (_execute_tool tool now st) as [[res|e''] st''] eqn:He.
      * destruct (synthesize_reply_returns _ _ _ _ _ (length (tasks st'')) Hwf Hn He)
          as [reply ->].
        discriminate.
      * intros [= <- <-]. by apply execute_tool_raise in He.
Qed.

(** ** Well-typed requests *)

Lemma description_arg_total o :
  text_or_absent (field o "description") ->
  exists desc, description_arg (JObject o) = Ret desc.
Proof.
  intros [Hn|[s Hs]]; unfold description_arg; rewrite get_field.
  - rewrite Hn. by exists "".
  - rewrite Hs. unfold Py.or_. simpl. destruct (String.eqb s ""); simpl; eauto.
Qed.

Lemma rest_returns body now st desc :
  description_arg (Py.or_ body (JObject [])) = Ret desc ->
  (exists b s st', create_task body now st = (Ret (b, s), st'))
  /\ (exists b s st', complete_task_by_description body st = (Ret (b, s), st'))
  /\ (exists b s st', delete_task_by_description body st = (Ret (b, s), st')).
Proof.
  intros Hd.
  unfold create_task, complete_task_by_description, delete_task_by_description.
  rewrite Hd.
  destruct (String.eqb desc "");
    [split_and!; do 3 eexists; reflexivity|].
  destruct (_find_task_by_desc desc (tasks st)) as [[i x]|] eqn:F;
    [|split_and!; do 3 eexists; reflexivity].
  rewrite (list_remove_found _ _ _ _ F).
  split_and!; do 3 eexists; reflexivity.
Qed.

Lemma execute_add_arg tool o desc now st :
  calls tool "addTask" o -> description_arg (JObject o) = Ret desc ->
  _execute_tool tool now st
  = if String.eqb desc "" then (Ret (error_body "description required"), st)
    else (Ret (JObject [("ok", JBool true);
                        ("task", Task.to_json (Task.mk (next_id st) desc false now))]),
          appended desc now st).
Proof. intros Hc Hd. enter_tool Hc. simpl. by rewrite Hd. Qed.

Lemma execute_returns tool f o desc now st :
  calls tool f o -> description_arg (JObject o) = Ret desc ->
  exists r st', _execute_tool tool now st = (Ret r, st').
Proof.
  intros Hc Hd. unfold _execute_tool. rewrite (calls_args _ _ _ Hc).
  cbn [Py.eq_str]. rewrite Hd.
  destruct (String.eqb f "addTask");
    [destruct (String.eqb desc ""); by eauto|].
  destruct (String.eqb f "viewTasks"); [by eauto|].
  destruct (String.eqb f "completeTask").
  { destruct (_find_task_by_desc desc (tasks st)) as [[i x]|]; by eauto. }
  destruct (String.eqb f "deleteTask"); [|by eauto].
  destruct (_find_task_by_desc desc (tasks st)) as [[i x]|] eqn:F; [|by eauto].
  rewrite (list_remove_found _ _ _ _ F). by eauto.
Qed.

(** X11.  The REST handlers always answer a request whose body is absent or
    is a JSON object in which [description] is absent, [null] or a string:
    they return a response and do not raise. *)
Theorem rest_answers_well_typed_body (body : json) (now : string) (st : store) :
  body = JNull
  \/ (exists o, body = JObject o /\ text_or_absent (field o "description")) ->
  (exists b s st', create_task body now st = (Ret (b, s), st'))
  /\ (exists b s st', complete_task_by_description body st = (Ret (b, s), st'))
  /\ (exists b s st', delete_task_by_description body st = (Ret (b, s), st')).
Proof.
  intros [->|(o & -> & Ht)].
  - by apply (rest_returns JNull now st "").
  - destruct (description_arg_total _ Ht) as [desc Hd].
    apply (rest_returns (JObject o) now st desc). by rewrite or_dict.
Qed.

(** X12.  In a store satisfying the invariant, the chat endpoint answers 200
    whenever the message can be read and the intent the router returns, if
    any, has a [parameters] entry that is missing or an object whose
    [description] is absent, [null] or a string. *)
Theorem chat_answers_well_typed_intent (client : llm_client) (body : json)
    (now msg : string) (st : store) :
  well_formed st ->
  message_arg (Py.or_ body (JObject [])) = Ret msg ->
  (forall tool, llm_route client msg = tool_intent tool ->
     exists f o, calls tool f o /\ text_or_absent (field o "description")) ->
  exists b st', brain_execute client body now st = (Ret (b, 200), st').
Proof.
  intros Hwf Hm Htyped.
  destruct (llm_route_shape client msg) as [Hr|[(c & Hr & _)|(tool & Hr & Hn)]].
  - rewrite (brain_execute_none _ _ _ _ _ Hm Hr). eauto.
  - rewrite (brain_execute_text _ _ _ _ _ _ Hm Hr). eauto.
  - rewrite (brain_execute_tool _ _ _ _ _ _ Hm Hr).
    destruct (Htyped tool Hr) as (f & o & Hc & Ht).
    destruct (description_arg_total _ Ht) as [desc Hd].
    destruct (execute_returns _ _ _ _ now st Hc Hd) as (r & st' & He).
    rewrite He.
    destruct (synthesize_reply_returns _ _ _ _ _ (length (tasks st')) Hwf Hn He)
      as [reply ->].
    eauto.
Qed.

(** X13.  Whatever the chat endpoint returns has status 200 and is one of
    two things: a text reply, with the store untouched, or a tool answer
    whose intent names one of the four functions and whose result is what
    the executor returned for it, the store being the executor's.  The
    executor's [{"error": "unknown"}] is never part of an answer. *)
Theorem chat_answer_shapes (client : llm_client) (body b : json) (now : string)
    (s : Z) (st st' : store) :
  brain_execute client body now st = (Ret (b, s), st') ->
  s = 200
  /\ ((exists c, b = text_reply c /\ st' = st)
      \/ (exists tool r reply,
            b = JObject [("mode", JString "tool"); ("tool", tool);
                         ("result", r); ("reply", JString reply)]
            /\ names_tool tool
            /\ _execute_tool tool now st = (Ret r, st')
            /\ r <> error_body "unknown")).
Proof.
  destruct (message_arg (Py.or_ body (JObject []))) as [msg|e] eqn:Hm.
  2:{ unfold brain_execute. by rewrite Hm. }
  destruct (llm_route_shape client msg) as [Hr|[(c & Hr & _)|(tool & Hr & Hn)]].
  - rewrite (brain_execute_none _ _ _ _ _ Hm Hr). intros [= <- <- <-].
    split; [reflexivity|]. left. eauto.
  - rewrite (brain_execute_text _ _ _ _ _ _ Hm Hr). intros [= <- <- <-].
    split; [reflexivity|]. left. eauto.
  - rewrite (brain_execute_tool _ _ _ _ _ _ Hm Hr).
    destruct (_execute_tool tool now st) as [[r|e] st''] eqn:He; [|discriminate].
    destruct (synthesize_reply _ _ _) as [reply|]; [|discriminate].
    intros [= <- <- <-]. split; [reflexivity|]. right.
    exists tool, r, reply. split; [reflexivity|]. split; [exact Hn|].
    split; [exact He|]. by eapply execute_known.
Qed.

(** X14.  The router returns [None] exactly when there is no client or the
    completion call raises; a text reply it returns is trimmed; a tool intent
    it returns names one of the four functions. *)
Theorem router_outcomes (client : llm_client) (msg : string) :
  (llm_route client msg = JNull <->
   client = None
   \/ exists create, client = Some create /\ create msg = CompletionRaises)
  /\ (forall c, llm_route client msg = text_reply c -> PyStr.strip c = c)
  /\ (forall data, llm_route client msg = tool_intent data -> names_tool data).
Proof.
  split; [|split].
  - unfold llm_route. destruct client as [create|]; [|split; eauto].
    destruct (create msg) as [|c] eqn:E.
    + split; [eauto|reflexivity].
    + split.
      * destruct (parse_tool _); discriminate.
      * intros [|(create' & [= <-] & Hr)]; [discriminate | congruence].
  - intros c Hc.
    destruct (llm_route_shape client msg) as [Hr|[(c' & Hr & Hs)|(d & Hr & _)]];
      rewrite Hr in Hc; try discriminate.
    by injection Hc as <-.
  - intros data. apply llm_route_tool.
Qed.

(** ** The two access paths *)

(** X15.  In a store satisfying the invariant, a REST request and the tool
    intent with the same arguments leave the same store behind: POST and
    addTask, PATCH and completeTask, DELETE and deleteTask.  (The REST
    handlers refuse a blank description before looking it up, the executor
    looks it up and finds nothing; either way nothing changes.) *)
Theorem rest_and_intent_leave_same_store (o : list (string * json))
    (tool : json) (now : string) (st : store) :
  well_formed st ->
  (calls tool "addTask" o ->
   (create_task (JObject o) now st).2 = (_execute_tool tool now st).2)
  /\ (calls tool "completeTask" o ->
      (complete_task_by_description (JObject o) st).2
      = (_execute_tool tool now st).2)
  /\ (calls tool "deleteTask" o ->
      (delete_task_by_description (JObject o) st).2
      = (_execute_tool tool now st).2).
Proof.
  intros Hwf.
  destruct (description_arg (JObject o)) as [desc|e] eqn:Hd.
  2:{ destruct (rest_raise o e now st Hd) as (-> & -> & ->).
      split_and!; intros Hc;
        by rewrite (execute_raise _ _ _ _ now st Hc) by (eauto; exact Hd). }
  destruct (decide (desc = "")) as [->|Hne].
  - destruct (rest_guard o st Hd) as (-> & ->).
    pose proof (find_blank_None st "" Hwf eq_refl) as Hnone.
    split_and!; intros Hc.
    + unfold create_task. rewrite or_dict, Hd.
      by rewrite (execute_add_arg _ _ _ _ _ Hc Hd).
    + by rewrite (execute_complete _ _ _ _ _ Hc Hd), Hnone.
    + by rewrite (execute_delete _ _ _ _ _ Hc Hd), Hnone.
  - split_and!; intros Hc.
    + unfold create_task. rewrite or_dict, Hd.
      rewrite (execute_add_arg _ _ _ _ _ Hc Hd).
      apply eqb_empty_false in Hne. by rewrite Hne.
    + rewrite (rest_complete_arg _ _ _ Hd Hne), (execute_complete _ _ _ _ _ Hc Hd).
      by destruct (_find_task_by_desc desc (tasks st)) as [[i x]|].
    + rewrite (rest_delete_arg _ _ _ Hd Hne), (execute_delete _ _ _ _ _ Hc Hd).
      by destruct (_find_task_by_desc desc (tasks st)) as [[i x]|].
Qed.

(** X16.  Whatever its [parameters] entry is, object or not, a viewTasks
    intent makes the executor return [ok] with the tasks in list order, the
    same array [GET /api/tasks] returns, and leave the store alone. *)
Theorem view_tasks_lists_the_store (o : list (string * json)) (now : string)
    (st : store) :
  Py.assoc "function" o = Some (JString "viewTasks") ->
  _execute_tool (JObject o) now st
  = (Ret (JObject [("ok", JBool true);
                   ("tasks", JArray (Task.to_json <$> tasks st))]), st)
  /\ get_tasks st
     = (Ret (JObject [("tasks", JArray (Task.to_json <$> tasks st))], 200), st).
Proof.
  intros Hf. split; [|reflexivity].
  unfold _execute_tool. rewrite get_field. unfold field. by rewrite Hf.
Qed.

(** ** Statuses *)

(** X17.  Every response has status 200, 201, 400 or 404.  A response with
    status 400 or 404 carries an [error] message and comes with an unchanged
    store; status 201 comes with exactly one task appended and the counter
    advanced by one. *)
Theorem status_tells_what_happened (r : request) (b : json) (s : Z)
    (st st' : store) :
  handle r st = (Ret (b, s), st') ->
  (s = 200 \/ s = 201 \/ s = 400 \/ s = 404)
  /\ (400 <= s -> st' = st /\ exists msg, b = error_body msg)
  /\ (s = 201 -> exists desc now, st' = appended desc now st).
Proof.
  destruct r as [|body now|body|body|client body now]; simpl.
  - intros [= <- <- <-]. split; [by left|]. split; [lia | discriminate].
  - unfold create_task. destruct (description_arg _) as [desc|]; [|discriminate].
    destruct (String.eqb desc ""); intros [= <- <- <-].
    + split; [by eauto|]. split; [by eauto | discriminate].
    + split; [by eauto|]. split; [lia | by eauto].
  - unfold complete_task_by_description.
    destruct (description_arg _) as [desc|]; [|discriminate].
    destruct (String.eqb desc "");
      [intros [= <- <- <-]; split; [by eauto|]; split; [by eauto | discriminate]|].
    destruct (_find_task_by_desc desc (tasks st)) as [[i x]|];
      intros [= <- <- <-]; (split; [by eauto|]);
      (split; [first [lia | by eauto] | discriminate]).
  - unfold delete_task_by_description.
    destruct (description_arg _) as [desc|]; [|discriminate].
    destruct (String.eqb desc "");
      [intros [= <- <- <-]; split; [by eauto|]; split; [by eauto | discriminate]|].
    destruct (_find_task_by_desc desc (tasks st)) as [[i x]|];
      [|intros [= <- <- <-]; split; [by eauto|];
        split; [by eauto | discriminate]].
    destruct (list_remove x (tasks st)); [|discriminate].
    intros [= <- <- <-]. split; [by eauto|]. split; [lia | discriminate].
  - intros He.
    assert (s = 200) as ->.
    { revert He. unfold brain_execute.
      destruct (message_arg _); [|discriminate].
      destruct (if negb _ then _ else _) as [[|]|]; try discriminate.
      - by intros [= _ <- _].
      - destruct (Py.index _ _); [|discriminate].
        destruct (_execute_tool _ _ _) as [[?|?] ?]; [|discriminate].
        destruct (synthesize_reply _ _ _); [|discriminate].
        by intros [= _ <- _]. }
    split; [by left|]. split; [lia | discriminate].
Qed.

(** ** What stays true of the store *)

Lemma sorted_count (l : list Z) : forall lo hi,
  lo <= hi ->
  StronglySorted Z.lt l -> Forall (fun z => lo <= z < hi) l ->
  Z.of_nat (length l) <= hi - lo.
Proof.
  induction l as [|z l IH]; intros lo hi Hle Hs Hr; simpl; [lia|].
  apply StronglySorted_cons in Hs as [Hz Hs].
  apply Forall_cons in Hr as [Hzr Hr].
  assert (Z.of_nat (length l) <= hi - (z + 1)); [|lia].
  apply IH; [lia | exact Hs |].
  rewrite Forall_forall in *. intros y Hy.
  specialize (Hz y Hy). specialize (Hr y Hy). simpl in *. lia.
Qed.

Lemma effect_positive st st' :
  effect st st' ->
  1 <= next_id st /\ Forall (fun x => 1 <= Task.id x) (tasks st) ->
  1 <= next_id st' /\ Forall (fun x => 1 <= Task.id x) (tasks st').
Proof.
  intros He [Hn Hp]. destruct He as [|desc now _ _|i x Hi|i x Hi]; simpl.
  - by split.
  - split; [lia|]. apply Forall_app. split; [exact Hp|].
    by apply Forall_singleton.
  - split; [exact Hn|]. apply Forall_insert; [exact Hp|].
    rewrite Forall_lookup in Hp. by apply (Hp i x).
  - split; [exact Hn|]. by apply Forall_delete.
Qed.

Lemma effect_persists st st' x' :
  effect st st' -> x' ∈ tasks st' ->
  (exists x, x ∈ tasks st /\ persists x x')
  \/ (Task.id x' = next_id st /\ Task.completed x' = false).
Proof.
  intros He Hx'. destruct He as [|desc now _ _|i x Hi|i x Hi]; simpl in Hx'.
  - left. exists x'. by repeat split.
  - apply elem_of_app in Hx' as [Hold|Hnew].
    + left. exists x'. by repeat split.
    + right. apply list_elem_of_singleton in Hnew as ->. by split.
  - apply list_elem_of_lookup in Hx' as [j Hj].
    apply list_lookup_insert_Some in Hj as [(-> & <- & _)|(_ & Hj)].
    + left. exists x. split; [by eapply list_elem_of_lookup_2|].
      by repeat split.
    + left. exists x'. split; [by eapply list_elem_of_lookup_2|].
      by repeat split.
  - left. exists x'. split; [by eapply list_elem_of_delete_inv|].
    by repeat split.
Qed.

Lemma effect_counter st st' : effect st st' -> next_id st <= next_id st'.
Proof. intros [| | |]; simpl; lia. Qed.

Lemma run_positive rs : forall st,
  1 <= next_id st /\ Forall (fun x => 1 <= Task.id x) (tasks st) ->
  1 <= next_id (run rs st)
  /\ Forall (fun x => 1 <= Task.id x) (tasks (run rs st)).
Proof.
  induction rs as [|r rs IH]; intros st Hp; simpl; [exact Hp|].
  apply IH. eapply effect_positive; [apply handle_effect | exact Hp].
Qed.

(** X18.  In every store reached from the initial one, each task has an id
    between 1 and the counter (excluded), pairwise distinct ids, and a
    description that is non-empty and has no surrounding whitespace; the
    number of tasks is at most the counter minus one. *)
Theorem reachable_store_invariants (rs : list request) :
  Forall (fun x => 1 <= Task.id x < next_id (run rs init)
                   /\ Task.description x <> ""
                   /\ PyStr.strip (Task.description x) = Task.description x)
         (tasks (run rs init))
  /\ NoDup (Task.id <$> tasks (run rs init))
  /\ Z.of_nat (length (tasks (run rs init))) <= next_id (run rs init) - 1.
Proof.
  destruct (reachable_well_formed rs) as [Hb Hs Hc].
  destruct (run_positive rs init) as [Hn Hp]; [split; [done | constructor]|].
  assert (Forall (fun z => 1 <= z < next_id (run rs init))
                 (Task.id <$> tasks (run rs init))) as Hrange.
  { apply Forall_fmap. rewrite Forall_forall in *. intros x Hx.
    specialize (Hb x Hx). specialize (Hp x Hx). simpl in *. lia. }
  split; [|split].
  - rewrite Forall_forall in *. intros x Hx.
    specialize (Hb x Hx). specialize (Hp x Hx). destruct (Hc x Hx) as [? ?].
    simpl in *. by repeat split.
  - clear -Hs. induction Hs as [|z l Hs IH Hz]; constructor; [|exact IH].
    intros Hin. rewrite Forall_forall in Hz. specialize (Hz z Hin). lia.
  - rewrite <- (length_fmap Task.id). by apply sorted_count.
Qed.

(** X19.  No request edits a task: along any sequence of requests, a task
    found in the store afterwards either was in the store before with the
    same id, description and creation time, and is completed if it was
    completed before, or was created meanwhile, with an id at or above the
    counter the sequence started from. *)
Theorem tasks_are_never_edited (rs : list request) : forall (st : store)
    (x' : Task.t),
  x' ∈ tasks (run rs st) ->
  (exists x, x ∈ tasks st /\ persists x x') \/ next_id st <= Task.id x'.
Proof.
  induction rs as [|r rs IH]; intros st x' Hx'; simpl in Hx'.
  - left. exists x'. by repeat split.
  - pose proof (handle_effect r st) as He.
    destruct (IH _ _ Hx') as [(x1 & Hx1 & Hp1)|Hnew].
    + destruct (effect_persists _ _ _ He Hx1) as [(x & Hx & Hp)|[Hid _]].
      * left. exists x. split; [exact Hx|].
        destruct Hp as (? & ? & ? & ?), Hp1 as (? & ? & ? & ?).
        repeat split; [congruence..|auto].
      * right. destruct Hp1 as (-> & _). lia.
    + right. pose proof (effect_counter _ _ He). lia.
Qed.

(** ** Client set-up *)

(** X20.  Start-up of the LLM client.  Without an API key (unset or empty)
    no client is ever configured.  With a key there is a client unless no
    SDK can be imported: the client object when the current SDK constructs
    it, the legacy module otherwise.  The mode is "new" or "legacy"
    accordingly whenever there is a client.  The one case that does not
    start is a legacy SDK without a key: [_llm_mode] is then never assigned
    and the banner raises [NameError]. *)
Theorem client_setup (env : option string) (s : sdk) :
  (api_key env = "" ->
   forall client mode, start env s = Started client mode -> client = None)
  /\ (api_key env <> "" ->
      start env s
      = match s with
        | NewSdk true => Started (Some ClientObject) (Some ModeNew)
        | NewSdk false | LegacySdk => Started (Some LegacyModule) (Some ModeLegacy)
        | NoSdk => Started None None
        end)
  /\ (start env s = BannerNameError <-> s = LegacySdk /\ api_key env = "").
Proof.
  unfold start, connect. destruct (String.eqb_spec (api_key env) "") as [E|E].
  - split; [|split].
    + intros _ client mode. destruct s as [| |[|]]; simpl; try discriminate;
        by intros [= <- _].
    + intros Hne. by destruct Hne.
    + destruct s as [| |[|]]; simpl; split; try discriminate; try done;
        by intros [[=] _].
  - split; [|split].
    + intros He. by destruct E.
    + intros _. by destruct s as [| |[|]].
    + destruct s as [| |[|]]; simpl; split; try discriminate;
        by intros [_ He].
Qed.

(** ** The message *)

Lemma message_arg_stripped data s : message_arg data = Ret s -> PyStr.strip s = s.
Proof.
  unfold message_arg. destruct (Py.get data "message") as [v|]; [|discriminate].
  simpl. destruct (Py.or_ v (JString "")); try discriminate.
  simpl. intros [= <-]. apply strip_idem.
Qed.

(** X2.  The chat endpoint uses its body only through the trimmed message:
    a request whose message reads as [msg] is handled exactly like the
    request [{"message": msg}].  In particular surrounding whitespace never
    reaches the LLM, and an absent or [null] message is sent as the empty
    string. *)
Theorem chat_depends_on_trimmed_message (client : llm_client)
    (body : json) (now msg : string) (st : store) :
  message_arg (Py.or_ body (JObject [])) = Ret msg ->
  brain_execute client body now st
  = brain_execute client (JObject [("message", JString msg)]) now st.
Proof.
  intros Hm. pose proof (message_arg_stripped _ _ Hm) as Hs.
  assert (message_arg (Py.or_ (JObject [("message", JString msg)]) (JObject []))
          = Ret msg) as Hm'.
  { unfold message_arg, Py.or_. simpl.
    destruct (String.eqb msg "") eqn:E; simpl; [|by rewrite Hs].
    apply String.eqb_eq in E as ->. reflexivity. }
  unfold brain_execute. by rewrite Hm, Hm'.
Qed.

End Properties.

(** * The statements at concrete inputs *)

Section Instances.
Existing Instance Sample.runtime.

(** ** The sample runtime's [str.lower]

    The ASCII case map is idempotent and commutes with [strip]. *)

Lemma lower_char_cases c :
  Sample.lower_char c = c \/ (plain c /\ plain (Sample.lower_char c)).
Proof.
  destruct c as [[|] [|] [|] [|] [|] [|] [|] [|]];
    first [ left; reflexivity
          | right; unfold plain, ascii7; vm_compute; repeat split; lia ].
Qed.

Lemma space1_lower a : PyStr.space1 (Sample.lower_char a) = PyStr.space1 a.
Proof. destruct (lower_char_cases a) as [->|[[_ ->] [_ ->]]]; done. Qed.

Lemma space2_lower a b :
  PyStr.space2 (Sample.lower_char a) (Sample.lower_char b) = PyStr.space2 a b.
Proof.
  destruct (lower_char_cases a) as [->|[[Ha _] [Ha' _]]].
  - destruct (lower_char_cases b) as [->|[[Hb _] [Hb' _]]]; [done|].
    by rewrite !ascii7_space2_r.
  - by rewrite !ascii7_space2_l.
Qed.

Lemma space3_lower a b c :
  PyStr.space3 (Sample.lower_char a) (Sample.lower_char b) (Sample.lower_char c)
  = PyStr.space3 a b c.
Proof.
  destruct (lower_char_cases a) as [->|[[Ha _] [Ha' _]]];
    [|by rewrite !ascii7_space3 by auto].
  destruct (lower_char_cases b) as [->|[[Hb _] [Hb' _]]];
    [|by rewrite !ascii7_space3 by auto].
  destruct (lower_char_cases c) as [->|[[Hc _] [Hc' _]]];
    [done | by rewrite !ascii7_space3 by auto].
Qed.

Lemma lower_char_idem c :
  Sample.lower_char (Sample.lower_char c) = Sample.lower_char c.
Proof.
  destruct c as [[|] [|] [|] [|] [|] [|] [|] [|]]; reflexivity.
Qed.

Lemma lower_idem s : Sample.lower (Sample.lower s) = Sample.lower s.
Proof.
  induction s as [|c s IH]; simpl; [reflexivity|].
  by rewrite lower_char_idem, IH.
Qed.

Lemma tok_lower s : tok (Sample.lower s) = tok s.
Proof.
  destruct s as [|a [|b [|c r]]]; simpl;
    by rewrite ?space1_lower, ?space2_lower, ?space3_lower.
Qed.

Lemma sdrop_lower k s : sdrop k (Sample.lower s) = Sample.lower (sdrop k s).
Proof.
  revert s. induction k as [|k IH]; intros [|a s]; simpl; try done.
Qed.

Lemma lstrip_lower s :
  PyStr.lstrip (Sample.lower s) = Sample.lower (PyStr.lstrip s).
Proof.
  induction s as [s E|s E IH] using lstrip_ind.
  - by rewrite !lstrip_fixed by by rewrite ?tok_lower.
  - rewrite (lstrip_drop s), <- IH, <- sdrop_lower, <- tok_lower by done.
    apply lstrip_drop. by rewrite tok_lower.
Qed.

Lemma all_space_lower s : PyStr.all_space (Sample.lower s) = PyStr.all_space s.
Proof.
  unfold PyStr.all_space. rewrite lstrip_lower. by destruct (PyStr.lstrip s).
Qed.

Lemma rstrip_lower s :
  PyStr.rstrip (Sample.lower s) = Sample.lower (PyStr.rstrip s).
Proof.
  induction s as [|a s IH]; [done|].
  cbn [PyStr.rstrip]. rewrite <- all_space_lower. cbn [Sample.lower PyStr.rstrip].
  change (String (Sample.lower_char a) (Sample.lower s)) with (Sample.lower (String a s)).
  destruct (PyStr.all_space (Sample.lower (String a s))); [done|].
  simpl. by rewrite IH.
Qed.

Lemma strip_lower s : PyStr.strip (Sample.lower s) = Sample.lower (PyStr.strip s).
Proof. unfold PyStr.strip. by rewrite lstrip_lower, rstrip_lower. Qed.

(** ** Sample stores *)

Lemma well_formed_milk : well_formed Sample.milk.
Proof.
  split; simpl.
  - repeat constructor.
  - repeat constructor.
  - repeat constructor; discriminate.
Defined.

Lemma well_formed_pantry : well_formed Sample.pantry.
Proof.
  split; simpl.
  - repeat constructor.
  - repeat constructor.
  - repeat constructor; discriminate.
Defined.

(** ** The claims *)

Lemma llm_route_classifies_witness :
  @llm_route Sample.runtime
     (Sample.answering (Sample.fenced (Sample.call_text "deleteTask" "Buy Milk")))
     "remove the milk"
  = tool_intent (Sample.call "deleteTask" "Buy Milk").
Proof.
  refine (proj1 (@llm_route_classifies Sample.runtime
            (fun _ => CompletionContent
               (Some (Sample.fenced (Sample.call_text "deleteTask" "Buy Milk"))))
            "remove the milk" _ eq_refl) _ "deleteTask" _ _ _).
  - vm_compute. reflexivity.
  - reflexivity.
  - repeat constructor.
Defined.

Lemma llm_failure_is_text_200_witness :
  @brain_execute Sample.runtime None (Sample.say "hello") Sample.noon Sample.milk
  = (Ret (text_reply "Sorry, I can't do that.", 200), Sample.milk).
Proof.
  destruct (proj1 (@llm_failure_is_text_200 Sample.runtime None
                     (Sample.say "hello") Sample.noon Sample.milk))
    as (msg & _ & Hrun).
  - right. exists [("message", JString "hello")]. split; [reflexivity|].
    right. by exists "hello".
  - apply Hrun. by left.
Defined.

(** C2 does not hold for every request: with no LLM client configured, a
    request whose message is a number, and one whose body is a list, are not
    answered with 200 and a text reply; reading the message raises, which
    the framework turns into a 500. *)
Lemma llm_failure_unreadable_message_counterexample :
  @brain_execute Sample.runtime None (JObject [("message", JInt 5)])
    Sample.noon Sample.milk
  = (Raise AttributeError, Sample.milk)
  /\ @brain_execute Sample.runtime None (JArray [JInt 1]) Sample.noon Sample.milk
     = (Raise AttributeError, Sample.milk).
Proof. split; reflexivity. Qed.

Lemma created_ids_are_sequential_witness :
  Task.id <$> @created Sample.runtime Sample.session init = [1; 2; 3]
  /\ next_id (@run Sample.runtime Sample.session init) = 4.
Proof.
  destruct (@created_ids_are_sequential Sample.runtime Sample.session)
    as (Hids & Hnext & _).
  split; [rewrite Hids | rewrite Hnext]; reflexivity.
Defined.

Lemma lookup_resolves_first_match_witness :
  (delete_task_by_description
     (Sample.about (Sample.nbsp ++ " BUY milk" ++ Sample.emsp)) Sample.pantry).2
  = removed_at 0 Sample.pantry.
Proof.
  pose proof (lookup_resolves_first_match
                (Sample.nbsp ++ " BUY milk" ++ Sample.emsp) Sample.pantry
                [("description",
                  JString (Sample.nbsp ++ " BUY milk" ++ Sample.emsp))] eq_refl)
    as (_ & _ & Hfound & _).
  destruct (Hfound 0%nat (Task.mk 1 "buy milk" true Sample.noon) eq_refl)
    as (_ & _ & Hrest & _).
  apply Hrest. vm_compute. discriminate.
Defined.

Lemma delete_tool_reports_trimmed_description_witness :
  _execute_tool (Sample.call "deleteTask" " Buy Milk ") Sample.noon Sample.milk
  = (Ret (JObject [("ok", JBool true);
                   ("deleted_description", JString "Buy Milk")]),
     {| tasks := []; next_id := 2 |}).
Proof.
  refine (proj1 (delete_tool_reports_trimmed_description
            (Sample.call "deleteTask" " Buy Milk ")
            [("description", JString " Buy Milk ")] " Buy Milk " Sample.noon
            Sample.milk 0 (Task.mk 1 "buy milk" false Sample.noon) _ _ _)).
  - eexists. split; [reflexivity|]. split; [reflexivity|]. by left.
  - reflexivity.
  - reflexivity.
Defined.

(** C5 with the key [deletedDescription] does not hold: deleting the stored
    task "buy milk" through the intent deleteTask("Buy Milk") returns a dict
    whose key is [deleted_description]; it has no key [deletedDescription]. *)
Lemma delete_tool_result_key_counterexample :
  (_execute_tool (Sample.call "deleteTask" "Buy Milk") Sample.noon Sample.milk).1
  = Ret (JObject [("ok", JBool true);
                  ("deleted_description", JString "Buy Milk")])
  /\ (_execute_tool (Sample.call "deleteTask" "Buy Milk") Sample.noon Sample.milk).1
     <> Ret (JObject [("ok", JBool true);
                      ("deletedDescription", JString "Buy Milk")])
  /\ (r ← (_execute_tool (Sample.call "deleteTask" "Buy Milk") Sample.noon
             Sample.milk).1;
      Py.get r "deletedDescription") = Ret JNull.
Proof. split; [reflexivity|]. split; [discriminate | reflexivity]. Qed.

Lemma blank_description_is_rejected_witness :
  create_task (Sample.about (" " ++ Sample.nbsp ++ Sample.emsp)) Sample.noon
    Sample.milk
  = (Ret (error_body "description is required", 400), Sample.milk)
  /\ _execute_tool (Sample.call "addTask" (" " ++ Sample.nbsp ++ Sample.emsp))
       Sample.noon Sample.milk
     = (Ret (error_body "description required"), Sample.milk).
Proof.
  destruct (blank_description_is_rejected JNull
              [("description", JString (" " ++ Sample.nbsp ++ Sample.emsp))]
              Sample.noon Sample.milk)
    as (_ & Hblank & _).
  destruct Hblank as [Hrest Htool].
  - right. eexists. split; reflexivity.
  - split; [exact Hrest|]. apply Htool.
    eexists. split; [reflexivity|]. split; [reflexivity|]. by left.
Defined.

(** C6 does not hold for every creation request without a description: a
    body that is a list, and an addTask intent whose [parameters] is [null],
    are not answered with the error dict; reading the description raises. *)
Lemma blank_description_ill_typed_counterexample :
  create_task (JArray [JInt 1]) Sample.noon Sample.milk
  = (Raise AttributeError, Sample.milk)
  /\ _execute_tool
       (JObject [("function", JString "addTask"); ("parameters", JNull)])
       Sample.noon Sample.milk
     = (Raise AttributeError, Sample.milk).
Proof. split; reflexivity. Qed.

Lemma completing_completed_task_is_noop_witness :
  complete_task_by_description (Sample.about "Buy Milk") Sample.pantry
  = (Ret (Task.to_json (Task.mk 1 "buy milk" true Sample.noon), 200),
     Sample.pantry).
Proof.
  refine (proj1 (completing_completed_task_is_noop
            [("description", JString "Buy Milk")] "Buy Milk" Sample.pantry 0
            (Task.mk 1 "buy milk" true Sample.noon) well_formed_pantry _ _ _));
    reflexivity.
Defined.

Lemma reply_synthesis_witness :
  @brain_execute Sample.runtime
    (Sample.answering (Sample.call_text "addTask" " Water plants "))
    (Sample.say "add water plants") Sample.noon Sample.milk
  = (Ret (JObject [("mode", JString "tool");
                   ("tool", Sample.call "addTask" " Water plants ");
                   ("result",
                    JObject [("ok", JBool true);
                             ("task", Task.to_json
                                (Task.mk 2 "Water plants" false Sample.noon))]);
                   ("reply", JString "Added “ Water plants ”.")], 200),
     appended "Water plants" Sample.noon Sample.milk)
  /\ @brain_execute Sample.runtime
       (Sample.answering (Sample.call_text "viewTasks" ""))
       (Sample.say "what is on my list?") Sample.noon Sample.milk
     = (Ret (JObject [("mode", JString "tool");
                      ("tool", Sample.call "viewTasks" "");
                      ("result",
                       JObject [("ok", JBool true);
                                ("tasks",
                                 JArray [Task.to_json
                                           (Task.mk 1 "buy milk" false
                                              Sample.noon)])]);
                      ("reply", JString "You have 1 task(s).")], 200),
        Sample.milk).
Proof.
  split.
  - assert (@llm_route Sample.runtime
              (Sample.answering (Sample.call_text "addTask" " Water plants "))
              "add water plants"
            = tool_intent (Sample.call "addTask" " Water plants ")) as Hroute
      by (vm_compute; reflexivity).
    destruct (@reply_synthesis Sample.runtime _
                (Sample.say "add water plants") Sample.noon _ Sample.milk _ _ _
                well_formed_milk eq_refl Hroute eq_refl)
      as (f & reply & Hf & _ & Hrun & Hok & _ & _).
    injection Hf as <-.
    destruct (Hok eq_refl) as (d & Hd & Hadd & _ & _); [discriminate|].
    injection Hd as <-. rewrite Hrun, (Hadd eq_refl). reflexivity.
  - assert (@llm_route Sample.runtime
              (Sample.answering (Sample.call_text "viewTasks" ""))
              "what is on my list?"
            = tool_intent (Sample.call "viewTasks" "")) as Hroute
      by (vm_compute; reflexivity).
    destruct (@reply_synthesis Sample.runtime _
                (Sample.say "what is on my list?") Sample.noon _ Sample.milk _
                _ _ well_formed_milk eq_refl Hroute eq_refl)
      as (f & reply & Hf & _ & Hrun & _ & Hview & _).
    injection Hf as <-.
    destruct (Hview eq_refl) as (digits & -> & Hdigits).
    rewrite Hrun, (decimal_unique _ _ Hdigits). reflexivity.
Defined.

Lemma error_results_change_nothing_witness :
  (_execute_tool (Sample.call "deleteTask" "walk dog") Sample.noon Sample.milk).2
  = Sample.milk.
Proof.
  refine (proj1 (proj1 (error_results_change_nothing
            (Sample.call "deleteTask" "walk dog") Sample.noon Sample.milk)
            (error_body "not found") _ _ _)).
  - reflexivity.
  - discriminate.
Defined.

Lemma blank_lookup_is_not_found_witness :
  _execute_tool (Sample.call "deleteTask" (" " ++ Sample.nbsp)) Sample.noon
    (@run Sample.runtime Sample.session init)
  = (Ret (error_body "not found"), @run Sample.runtime Sample.session init).
Proof.
  refine (proj1 (@blank_lookup_is_not_found Sample.runtime Sample.session
            (Sample.call "deleteTask" (" " ++ Sample.nbsp)) "deleteTask"
            Sample.noon _)
            [("description", JString (" " ++ Sample.nbsp))] _ _).
  - by right.
  - eexists. split; [reflexivity|]. split; [reflexivity|]. by left.
  - right. eexists. split; reflexivity.
Defined.

(** C10 does not hold for every intent without a description: when the
    [parameters] entry is [null], completeTask and deleteTask do not return
    the "not found" dict; reading the description raises. *)
Lemma blank_lookup_ill_typed_counterexample :
  _execute_tool
    (JObject [("function", JString "completeTask"); ("parameters", JNull)])
    Sample.noon (@run Sample.runtime Sample.session init)
  = (Raise AttributeError, @run Sample.runtime Sample.session init)
  /\ _execute_tool
       (JObject [("function", JString "deleteTask"); ("parameters", JNull)])
       Sample.noon (@run Sample.runtime Sample.session init)
     = (Raise AttributeError, @run Sample.runtime Sample.session init).
Proof. split; reflexivity. Qed.

(** ** Further properties *)

Lemma code_block_is_unwrapped_witness :
  _strip_fences
    ("```" ++ "json" ++ String "010" (" hello " ++ String "010" "```"))
  = "hello"
  /\ @llm_route Sample.runtime
       (Some (fun _ => CompletionContent
                (Some ("```" ++ "json"
                       ++ String "010"
                            (Sample.call_text "viewTasks" ""
                             ++ String "010" "```")))))
       "list"
     = @llm_route Sample.runtime
         (Some (fun _ => CompletionContent
                  (Some (Sample.call_text "viewTasks" ""))))
         "list".
Proof.
  split.
  - exact (proj1 (@code_block_is_unwrapped Sample.runtime "" "json" " hello "
                    eq_refl)).
  - apply (@code_block_is_unwrapped Sample.runtime "list" "json"
             (Sample.call_text "viewTasks" "") eq_refl).
    reflexivity.
Defined.

Lemma chat_depends_on_trimmed_message_witness :
  @brain_execute Sample.runtime (Sample.answering "Hello!")
    (JObject [("message", JString "  hi  "); ("lang", JString "en")])
    Sample.noon Sample.milk
  = @brain_execute Sample.runtime (Sample.answering "Hello!")
      (JObject [("message", JString "hi")]) Sample.noon Sample.milk.
Proof.
  apply (@chat_depends_on_trimmed_message Sample.runtime
           (Sample.answering "Hello!")
           (JObject [("message", JString "  hi  "); ("lang", JString "en")])
           Sample.noon "hi" Sample.milk).
  reflexivity.
Defined.

Lemma lookup_ignores_case_and_padding_witness :
  _find_task_by_desc (Sample.lower " Buy MILK ") (tasks Sample.pantry)
  = _find_task_by_desc " Buy MILK " (tasks Sample.pantry)
  /\ _find_task_by_desc (normalize " Buy MILK ") (tasks Sample.pantry)
     = _find_task_by_desc " Buy MILK " (tasks Sample.pantry).
Proof.
  apply (proj2 (@lookup_ignores_case_and_padding Sample.runtime " Buy MILK "
                  (tasks Sample.pantry))).
  - exact lower_idem.
  - exact strip_lower.
Defined.

Lemma stored_task_is_found_or_shadowed_witness :
  exists j y,
    _find_task_by_desc "Buy Milk" (tasks Sample.pantry) = Some (j, y)
    /\ (j <= 1)%nat
    /\ normalize (Task.description y) = normalize "Buy Milk".
Proof.
  apply (stored_task_is_found_or_shadowed (tasks Sample.pantry) 1
           (Task.mk 2 "Buy Milk" false Sample.noon)).
  reflexivity.
Defined.

Lemma created_task_is_found_witness :
  _find_task_by_desc " Walk Dog " (tasks (appended "Walk Dog" Sample.noon Sample.milk))
  = Some (1%nat, Task.mk 2 "Walk Dog" false Sample.noon).
Proof.
  refine (proj2 (proj2 (created_task_is_found
            [("description", JString " Walk Dog ")] " Walk Dog " Sample.noon
            Sample.milk eq_refl _))).
  vm_compute. discriminate.
Defined.

Lemma lookup_after_delete_witness :
  (0 <= 0)%nat
  /\ tasks Sample.pantry !! 1%nat = Some (Task.mk 2 "Buy Milk" false Sample.noon)
  /\ normalize (Task.description (Task.mk 2 "Buy Milk" false Sample.noon))
     = normalize "buy milk".
Proof.
  apply (proj2 (lookup_after_delete (runtime := Sample.runtime) "buy milk" Sample.pantry 0
                  (Task.mk 1 "buy milk" true Sample.noon) eq_refl)).
  reflexivity.
Defined.


Lemma create_then_delete_restores_tasks_witness :
  delete_task_by_description (Sample.about "Walk Dog")
    (create_task (Sample.about "Walk Dog") Sample.noon Sample.milk).2
  = (Ret (JObject [("ok", JBool true);
                   ("deleted_description", JString "Walk Dog")], 200),
     {| tasks := tasks Sample.milk; next_id := 3 |}).
Proof.
  apply (create_then_delete_restores_tasks
           [("description", JString "Walk Dog")] "Walk Dog" Sample.noon
           Sample.milk eq_refl).
  - vm_compute. discriminate.
  - reflexivity.
Defined.

Lemma blank_description_stops_patch_and_delete_witness :
  complete_task_by_description (Sample.about (Sample.emsp ++ " ")) Sample.pantry
  = (Ret (error_body "description is required", 400), Sample.pantry)
  /\ delete_task_by_description (Sample.about (Sample.emsp ++ " ")) Sample.pantry
     = (Ret (error_body "description is required", 400), Sample.pantry).
Proof.
  apply (blank_description_stops_patch_and_delete
           [("description", JString (Sample.emsp ++ " "))] Sample.pantry).
  right. eexists. by split.
Defined.

Lemma failed_request_changes_nothing_witness :
  @handle Sample.runtime (PostTask (JObject [("description", JInt 5)]) Sample.noon)
     Sample.milk
  = (Raise AttributeError, Sample.milk)
  /\ AttributeError = AttributeError /\ Sample.milk = Sample.milk.
Proof.
  split; [reflexivity|].
  apply (@failed_request_changes_nothing Sample.runtime
           (PostTask (JObject [("description", JInt 5)]) Sample.noon)
           Sample.milk Sample.milk AttributeError well_formed_milk).
  reflexivity.
Defined.

Lemma rest_answers_well_typed_body_witness :
  (exists b s st', create_task JNull Sample.noon Sample.milk = (Ret (b, s), st'))
  /\ (exists b s st',
        complete_task_by_description JNull Sample.milk = (Ret (b, s), st'))
  /\ (exists b s st',
        delete_task_by_description JNull Sample.milk = (Ret (b, s), st')).
Proof.
  apply (rest_answers_well_typed_body JNull Sample.noon Sample.milk). by left.
Defined.

Lemma chat_answers_well_typed_intent_witness :
  exists b st',
    @brain_execute Sample.runtime
      (Sample.answering (Sample.call_text "completeTask" "Buy Milk"))
      (Sample.say " done with the milk ") Sample.noon Sample.milk
    = (Ret (b, 200), st').
Proof.
  apply (@chat_answers_well_typed_intent Sample.runtime
           (Sample.answering (Sample.call_text "completeTask" "Buy Milk"))
           (Sample.say " done with the milk ") Sample.noon "done with the milk"
           Sample.milk well_formed_milk eq_refl).
  intros tool Ht. vm_compute in Ht. injection Ht as <-.
  exists "completeTask", [("description", JString "Buy Milk")].
  split; [|right; by eexists].
  eexists. split; [reflexivity|]. split; [reflexivity|]. by left.
Defined.

Lemma chat_answer_shapes_witness :
  200 = 200
  /\ ((exists c, text_reply "Hello!" = text_reply c /\ Sample.milk = Sample.milk)
      \/ (exists tool r reply,
            text_reply "Hello!"
            = JObject [("mode", JString "tool"); ("tool", tool);
                       ("result", r); ("reply", JString reply)]
            /\ names_tool tool
            /\ _execute_tool tool Sample.noon Sample.milk = (Ret r, Sample.milk)
            /\ r <> error_body "unknown")).
Proof.
  apply (@chat_answer_shapes Sample.runtime (Sample.answering " Hello! ")
           (Sample.say "hi") (text_reply "Hello!") Sample.noon 200
           Sample.milk Sample.milk).
  reflexivity.
Defined.

Lemma rest_and_intent_leave_same_store_witness :
  (delete_task_by_description (Sample.about " Buy Milk") Sample.pantry).2
  = (_execute_tool (Sample.call "deleteTask" " Buy Milk") Sample.noon
       Sample.pantry).2.
Proof.
  refine (proj2 (proj2 (rest_and_intent_leave_same_store
            [("description", JString " Buy Milk")]
            (Sample.call "deleteTask" " Buy Milk") Sample.noon Sample.pantry
            well_formed_pantry)) _).
  eexists. split; [reflexivity|]. split; [reflexivity|]. by left.
Defined.

Lemma view_tasks_lists_the_store_witness :
  _execute_tool (JObject [("function", JString "viewTasks"); ("parameters", JInt 7)])
    Sample.noon Sample.milk
  = (Ret (JObject [("ok", JBool true);
                   ("tasks", JArray (Task.to_json <$> tasks Sample.milk))]),
     Sample.milk).
Proof.
  exact (proj1 (view_tasks_lists_the_store
                  [("function", JString "viewTasks"); ("parameters", JInt 7)]
                  Sample.noon Sample.milk eq_refl)).
Defined.

Lemma status_tells_what_happened_witness :
  (404 = 200 \/ 404 = 201 \/ 404 = 400 \/ 404 = 404)
  /\ (400 <= 404 ->
      Sample.milk = Sample.milk
      /\ exists msg, error_body "task not found" = error_body msg)
  /\ (404 = 201 -> exists desc now, Sample.milk = appended desc now Sample.milk).
Proof.
  apply (@status_tells_what_happened Sample.runtime
           (PatchByDescription (Sample.about "walk dog"))
           (error_body "task not found") 404 Sample.milk Sample.milk).
  reflexivity.
Defined.

Lemma tasks_are_never_edited_witness :
  (exists x, x ∈ tasks Sample.pantry
             /\ persists x (Task.mk 2 "Buy Milk" true Sample.noon))
  \/ next_id Sample.pantry <= 2.
Proof.
  apply (@tasks_are_never_edited Sample.runtime
           [DeleteByDescription (Sample.about "buy milk");
            PatchByDescription (Sample.about "buy milk")]
           Sample.pantry (Task.mk 2 "Buy Milk" true Sample.noon)).
  vm_compute. repeat constructor.
Defined.

Lemma client_setup_witness :
  start None LegacySdk = BannerNameError
  /\ start (Some "sk-test") (NewSdk false)
     = Started (Some LegacyModule) (Some ModeLegacy).
Proof.
  destruct (client_setup None LegacySdk) as (_ & _ & Hbanner).
  destruct (client_setup (Some "sk-test") (NewSdk false)) as (_ & Hkey & _).
  split; [by apply Hbanner | apply Hkey; discriminate].
Defined.

(** ** Worked examples *)

Example of_nat_12 : PyStr.of_nat 12 = "12".
Proof. reflexivity. Qed.

Example strip_fences_fenced :
  _strip_fences (Sample.fenced (Sample.call_text "viewTasks" ""))
  = Sample.call_text "viewTasks" "".
Proof. reflexivity. Qed.

Example strip_fences_one_line : _strip_fences "```hello```" = "hello".
Proof. reflexivity. Qed.

Example normalize_mixed : normalize "  Buy Milk " = "buy milk".
Proof. reflexivity. Qed.

(** Whitespace beyond ASCII is trimmed as Python trims it: a no-break space
    (U+00A0) and an em space (U+2003) around a description, and around the
    reply of the model. *)
Example strip_unicode_space :
  PyStr.strip (Sample.nbsp ++ " Buy Milk" ++ Sample.emsp ++ " ") = "Buy Milk".
Proof. reflexivity. Qed.

Example normalize_unicode_space :
  normalize (Sample.emsp ++ "Buy Milk" ++ Sample.nbsp) = "buy milk".
Proof. reflexivity. Qed.

Example reply_in_no_break_spaces_is_tool_intent :
  @llm_route Sample.runtime
    (Sample.answering
       (Sample.nbsp ++ Sample.call_text "viewTasks" "" ++ Sample.nbsp))
    "list"
  = tool_intent (Sample.call "viewTasks" "").
Proof. vm_compute. reflexivity. Qed.

Example lookup_through_no_break_space :
  _find_task_by_desc (Sample.nbsp ++ "Walk Dog") (tasks Sample.pantry)
  = Some (2%nat, Task.mk 4 "walk dog" false Sample.noon).
Proof. reflexivity. Qed.

Example session_store :
  tasks (@run Sample.runtime Sample.session init)
  = [Task.mk 2 "walk dog" false Sample.noon;
     Task.mk 3 "water plants" false Sample.noon].
Proof. reflexivity. Qed.

(** Adding through the chat endpoint, then listing: one new task, not
    completed, with the description as sent. *)
Example add_then_list :
  let st := (@brain_execute Sample.runtime
               (Sample.answering (Sample.call_text "addTask" "Water plants"))
               (Sample.say "add water plants") Sample.noon init).2 in
  get_tasks st
  = (Ret (JObject [("tasks",
                    JArray [Task.to_json
                              (Task.mk 1 "Water plants" false Sample.noon)])],
          200), st).
Proof. reflexivity. Qed.

Example plain_text_is_relayed :
  @brain_execute Sample.runtime (Sample.answering "Hello! How can I help?")
    (Sample.say "hi") Sample.noon Sample.milk
  = (Ret (text_reply "Hello! How can I help?", 200), Sample.milk).
Proof. reflexivity. Qed.

Example delete_through_chat :
  @brain_execute Sample.runtime
    (Sample.answering (Sample.call_text "deleteTask" "Buy Milk"))
    (Sample.say "remove the milk") Sample.noon Sample.milk
  = (Ret (JObject [("mode", JString "tool");
                   ("tool", Sample.call "deleteTask" "Buy Milk");
                   ("result", JObject [("ok", JBool true);
                                       ("deleted_description", JString "Buy Milk")]);
                   ("reply", JString "Deleted “Buy Milk”.")], 200),
     {| tasks := []; next_id := 2 |}).
Proof. reflexivity. Qed.

Example failed_delete_says_ok :
  @brain_execute Sample.runtime
    (Sample.answering (Sample.call_text "deleteTask" "walk dog"))
    (Sample.say "remove the dog") Sample.noon Sample.milk
  = (Ret (JObject [("mode", JString "tool");
                   ("tool", Sample.call "deleteTask" "walk dog");
                   ("result", error_body "not found");
                   ("reply", JString "OK")], 200),
     Sample.milk).
Proof. reflexivity. Qed.

End Instances.
